(** * Screenshot annotator: the annotation overlay of the content script

    A shallow embedding of [src/extension/content.js] (class
    [AnnotationOverlay]) and the properties of its placement protocol,
    its coordinate mapping and its renderer, followed by the placement
    handlers and the renderer of the web application
    ([src/unnamed/part_000]).

    - JavaScript numbers are IEEE 754 binary64 values: Rocq's primitive
      [float], whose operations the kernel evaluates.
    - JavaScript strings are [string]s (code units below 256).
    - The 2D context of the canvas is a record of the drawing state the
      script touches, together with the list of marks painted on the
      bitmap since it was last erased as a whole.
    - [Math.atan2], [Math.cos], [Math.sin] and [measureText] are supplied
      by the browser: they are the members of the class [Host]. *)

From Stdlib Require Import Floats ZArith String Ascii List Bool Lia.
From Stdlib Require Import Sorted FinFun DecimalString DecimalZ DecimalPos.
Import ListNotations.

Local Open Scope string_scope.

(** ** JavaScript values *)

Module JS.

(** [Number.isFinite] *)
Definition isFinite (x : float) : bool := PrimFloat.is_finite x.

(** [Math.PI], the binary64 value nearest to pi. *)
Definition PI : float := 0x1.921fb54442d18p+1%float.

(** White space and line terminators of ECMAScript that fit a code unit
    below 256: TAB, LF, VT, FF, CR, SP and NBSP. *)
Definition isWhiteSpace (c : ascii) : bool :=
  match N_of_ascii c with
  | 9%N | 10%N | 11%N | 12%N | 13%N | 32%N | 160%N => true
  | _ => false
  end.

Fixpoint trimStart (s : string) : string :=
  match s with
  | EmptyString => EmptyString
  | String c r => if isWhiteSpace c then trimStart r else s
  end.

Definition reverse (s : string) : string :=
  string_of_list_ascii (rev (list_ascii_of_string s)).

Definition trimEnd (s : string) : string := reverse (trimStart (reverse s)).

(** [String.prototype.trim] *)
Definition trim (s : string) : string := trimEnd (trimStart s).

(** A string of white space only (the empty string included). *)
Definition isBlank (s : string) : bool :=
  forallb isWhiteSpace (list_ascii_of_string s).

(** [!text] for a string: only the empty string is falsy. *)
Definition falsy (s : string) : bool :=
  match s with EmptyString => true | String _ _ => false end.

(** [Date.now().toString()]: the time value is an integral number of
    milliseconds, printed in decimal. *)
Definition toString (t : Z) : string := NilZero.string_of_int (Z.to_int t).

(** [`${n}`] for an array length. *)
Definition lengthToString (n : nat) : string :=
  NilZero.string_of_uint (Nat.to_uint n).

End JS.

(** ** The canvas and its 2D context *)

Module Canvas.

Inductive PathOp : Type :=
| MoveTo (x y : float)
| LineTo (x y : float)
| Arc (x y radius startAngle endAngle : float).

(** What one drawing call leaves on the bitmap. *)
Inductive Paint : Type :=
| Stroked (path : list PathOp) (strokeStyle : string) (lineWidth : float)
          (lineDash : list float)
| Filled (path : list PathOp) (fillStyle : string)
| FilledRect (x y w h : float) (fillStyle : string)
| StrokedRect (x y w h : float) (strokeStyle : string) (lineWidth : float)
              (lineDash : list float)
| FilledText (text : string) (x y : float) (font fillStyle : string)
| Erased (x y w h : float).

(** The canvas element with the state of its 2D context.
    [getContext('2d')] returns the same context on every call, so the
    drawing state persists from one handler to the next.  [layer] lists
    the marks on the bitmap, oldest first. *)
Record t : Type := mk {
  width : float;
  height : float;
  cursor : string;
  strokeStyle : string;
  fillStyle : string;
  font : string;
  lineWidth : float;
  lineDash : list float;
  path : list PathOp;
  layer : list Paint
}.

(** The number a script assigns to [canvas.width] or [canvas.height] is
    converted to an [unsigned long]: NaN, the infinities and the zeros
    give 0, every other number is truncated toward zero and reduced
    modulo 2^32. *)
Definition integerPart (v : float) : Z :=
  match Prim2SF v with
  | S754_finite sign m e =>
      let n := Z.shiftl (Z.pos m) e in
      if sign then (- n)%Z else n
  | _ => 0%Z
  end.

Definition toUnsignedLong (v : float) : Z := (integerPart v mod 2 ^ 32)%Z.

(** The attribute then holds the converted value when it is at most
    2147483647, and its default otherwise: 300 for the width and 150 for
    the height. *)
Definition sizeAttribute (default : Z) (v : float) : float :=
  let n := toUnsignedLong v in
  PrimFloat.of_uint63 (Uint63.of_Z (if (n <=? 2147483647)%Z then n else default)).

(** [document.createElement('canvas')] followed by the assignments of
    [createOverlay]: the width and height attributes and the
    [cursor: crosshair] style.  The context starts with the defaults of
    the Canvas API. *)
Definition create (w h : float) : t :=
  {| width := w; height := h; cursor := "crosshair";
     strokeStyle := "#000000"; fillStyle := "#000000";
     font := "10px sans-serif"; lineWidth := 1%float; lineDash := [];
     path := []; layer := [] |}.

Definition set_cursor (v : string) (c : t) : t :=
  mk (width c) (height c) v (strokeStyle c) (fillStyle c) (font c)
     (lineWidth c) (lineDash c) (path c) (layer c).
Definition set_strokeStyle (v : string) (c : t) : t :=
  mk (width c) (height c) (cursor c) v (fillStyle c) (font c)
     (lineWidth c) (lineDash c) (path c) (layer c).
Definition set_fillStyle (v : string) (c : t) : t :=
  mk (width c) (height c) (cursor c) (strokeStyle c) v (font c)
     (lineWidth c) (lineDash c) (path c) (layer c).
Definition set_font (v : string) (c : t) : t :=
  mk (width c) (height c) (cursor c) (strokeStyle c) (fillStyle c) v
     (lineWidth c) (lineDash c) (path c) (layer c).
Definition set_lineWidth (v : float) (c : t) : t :=
  mk (width c) (height c) (cursor c) (strokeStyle c) (fillStyle c) (font c)
     v (lineDash c) (path c) (layer c).
Definition set_lineDash (v : list float) (c : t) : t :=
  mk (width c) (height c) (cursor c) (strokeStyle c) (fillStyle c) (font c)
     (lineWidth c) v (path c) (layer c).
Definition set_path (v : list PathOp) (c : t) : t :=
  mk (width c) (height c) (cursor c) (strokeStyle c) (fillStyle c) (font c)
     (lineWidth c) (lineDash c) v (layer c).
Definition set_layer (v : list Paint) (c : t) : t :=
  mk (width c) (height c) (cursor c) (strokeStyle c) (fillStyle c) (font c)
     (lineWidth c) (lineDash c) (path c) v.

Definition paint (p : Paint) (c : t) : t := set_layer (layer c ++ [p]) c.

(** Drawing code is a sequence of calls on the context: a state monad. *)
Definition Draw (A : Type) : Type := t -> A * t.

Definition ret {A} (a : A) : Draw A := fun c => (a, c).
Definition bind {A B} (m : Draw A) (k : A -> Draw B) : Draw B :=
  fun c => let (a, c') := m c in k a c'.
Definition call (f : t -> t) : Draw unit := fun c => (tt, f c).
Definition read {A} (f : t -> A) : Draw A := fun c => (f c, c).
Definition exec {A} (m : Draw A) (c : t) : t := snd (m c).

Definition sameRect (x y w h : float) (c : t) : bool :=
  PrimFloat.Leibniz.eqb x 0%float && PrimFloat.Leibniz.eqb y 0%float
  && PrimFloat.Leibniz.eqb w (width c) && PrimFloat.Leibniz.eqb h (height c).

(** [clearRect]: the script never changes the transform, so the
    rectangle [(0, 0, width, height)] is the whole bitmap and nothing
    painted before it remains; any other rectangle is recorded as an
    erasure on top of the earlier marks. *)
Definition clearRect (x y w h : float) : Draw unit :=
  call (fun c => if sameRect x y w h c then set_layer [] c
                 else paint (Erased x y w h) c).

Definition beginPath : Draw unit := call (set_path []).
Definition moveTo (x y : float) : Draw unit :=
  call (fun c => set_path (path c ++ [MoveTo x y]) c).
Definition lineTo (x y : float) : Draw unit :=
  call (fun c => set_path (path c ++ [LineTo x y]) c).
Definition arc (x y r a0 a1 : float) : Draw unit :=
  call (fun c => set_path (path c ++ [Arc x y r a0 a1]) c).
Definition stroke : Draw unit :=
  call (fun c => paint (Stroked (path c) (strokeStyle c) (lineWidth c) (lineDash c)) c).
Definition fill : Draw unit :=
  call (fun c => paint (Filled (path c) (fillStyle c)) c).
Definition fillRect (x y w h : float) : Draw unit :=
  call (fun c => paint (FilledRect x y w h (fillStyle c)) c).
Definition strokeRect (x y w h : float) : Draw unit :=
  call (fun c => paint (StrokedRect x y w h (strokeStyle c) (lineWidth c) (lineDash c)) c).
Definition fillText (text : string) (x y : float) : Draw unit :=
  call (fun c => paint (FilledText text x y (font c) (fillStyle c)) c).
Definition setLineDash (segments : list float) : Draw unit :=
  call (set_lineDash segments).

(** [array.forEach] with a drawing callback. *)
Fixpoint forEach {A} (f : A -> Draw unit) (l : list A) : Draw unit :=
  match l with
  | [] => ret tt
  | a :: l' => bind (f a) (fun _ => forEach f l')
  end.

End Canvas.

Declare Scope draw_scope.
Delimit Scope draw_scope with draw.
Notation "x <- m ;; k" := (Canvas.bind m (fun x => k))
  (at level 61, m at next level, right associativity) : draw_scope.
Notation "m ;; k" := (Canvas.bind m (fun _ => k))
  (at level 61, right associativity) : draw_scope.
Notation "'ctx.strokeStyle' '::=' v" := (Canvas.call (Canvas.set_strokeStyle v))
  (at level 60) : draw_scope.
Notation "'ctx.fillStyle' '::=' v" := (Canvas.call (Canvas.set_fillStyle v))
  (at level 60) : draw_scope.
Notation "'ctx.font' '::=' v" := (Canvas.call (Canvas.set_font v))
  (at level 60) : draw_scope.
Notation "'ctx.lineWidth' '::=' v" := (Canvas.call (Canvas.set_lineWidth v))
  (at level 60) : draw_scope.

(** ** What the browser supplies *)

Class Host : Type := {
  Math_atan2 : float -> float -> float;
  Math_cos : float -> float;
  Math_sin : float -> float;
  (** [ctx.measureText(text).width] under the given [ctx.font] *)
  measureTextWidth : string -> string -> float
}.

(** ** The data of the overlay *)

(** An annotation object as the click handler builds it: [(x, y)] is
    where the label is placed, [(pointer_x, pointer_y)] where the arrow
    points. *)
Record Annotation : Type := mkAnnotation {
  id : string;
  text : string;
  x : float;
  y : float;
  pointer_x : float;
  pointer_y : float;
  timestamp : string
}.

(** [a.pointer_x = px; a.pointer_y = py] *)
Definition set_pointer (px py : float) (a : Annotation) : Annotation :=
  mkAnnotation (id a) (text a) (x a) (y a) px py (timestamp a).

(** The screenshot object received with the [startAnnotation] message.
    [sannotations] is [None] when the property is missing or null. *)
Record Screenshot : Type := mkScreenshot {
  sid : string;
  imageData : string;
  displayWidth : float;
  displayHeight : float;
  sannotations : option (list Annotation)
}.

(** [canvas.getBoundingClientRect()] *)
Record DOMRect : Type := mkRect {
  left : float;
  top : float;
  rwidth : float;
  rheight : float
}.

(** What a canvas listener reads besides the fields of the overlay: the
    position of the mouse event, the bounding box of the canvas at that
    moment, and the clock ([Date.now()] and [new Date().toISOString()]). *)
Record Pointer : Type := mkPointer {
  clientX : float;
  clientY : float;
  rect : DOMRect;
  dateNow : Z;
  isoNow : string
}.

(** The fields of [AnnotationOverlay], and the part of the document its
    handlers reach: whether the overlay element is in the document, the
    value of [#annotation-text-input] and the text of
    [#annotation-status]. *)
Record AnnotationOverlay : Type := mkOverlay {
  isActive : bool;
  screenshot : option Screenshot;
  annotations : list Annotation;
  currentAnnotation : option Annotation;
  overlayShown : bool;
  canvas : option Canvas.t;
  isAddingAnnotation : bool;
  pendingText : string;
  textInput : string;
  statusText : string
}.

Definition set_isActive (v : bool) (s : AnnotationOverlay) : AnnotationOverlay :=
  mkOverlay v (screenshot s) (annotations s) (currentAnnotation s) (overlayShown s)
            (canvas s) (isAddingAnnotation s) (pendingText s) (textInput s) (statusText s).
Definition set_screenshot (v : option Screenshot) (s : AnnotationOverlay) : AnnotationOverlay :=
  mkOverlay (isActive s) v (annotations s) (currentAnnotation s) (overlayShown s)
            (canvas s) (isAddingAnnotation s) (pendingText s) (textInput s) (statusText s).
Definition set_annotations (v : list Annotation) (s : AnnotationOverlay) : AnnotationOverlay :=
  mkOverlay (isActive s) (screenshot s) v (currentAnnotation s) (overlayShown s)
            (canvas s) (isAddingAnnotation s) (pendingText s) (textInput s) (statusText s).
Definition set_currentAnnotation (v : option Annotation) (s : AnnotationOverlay) : AnnotationOverlay :=
  mkOverlay (isActive s) (screenshot s) (annotations s) v (overlayShown s)
            (canvas s) (isAddingAnnotation s) (pendingText s) (textInput s) (statusText s).
Definition set_overlayShown (v : bool) (s : AnnotationOverlay) : AnnotationOverlay :=
  mkOverlay (isActive s) (screenshot s) (annotations s) (currentAnnotation s) v
            (canvas s) (isAddingAnnotation s) (pendingText s) (textInput s) (statusText s).
Definition set_canvas (v : option Canvas.t) (s : AnnotationOverlay) : AnnotationOverlay :=
  mkOverlay (isActive s) (screenshot s) (annotations s) (currentAnnotation s) (overlayShown s)
            v (isAddingAnnotation s) (pendingText s) (textInput s) (statusText s).
Definition set_isAddingAnnotation (v : bool) (s : AnnotationOverlay) : AnnotationOverlay :=
  mkOverlay (isActive s) (screenshot s) (annotations s) (currentAnnotation s) (overlayShown s)
            (canvas s) v (pendingText s) (textInput s) (statusText s).
Definition set_pendingText (v : string) (s : AnnotationOverlay) : AnnotationOverlay :=
  mkOverlay (isActive s) (screenshot s) (annotations s) (currentAnnotation s) (overlayShown s)
            (canvas s) (isAddingAnnotation s) v (textInput s) (statusText s).
Definition set_textInput (v : string) (s : AnnotationOverlay) : AnnotationOverlay :=
  mkOverlay (isActive s) (screenshot s) (annotations s) (currentAnnotation s) (overlayShown s)
            (canvas s) (isAddingAnnotation s) (pendingText s) v (statusText s).
Definition set_statusText (v : string) (s : AnnotationOverlay) : AnnotationOverlay :=
  mkOverlay (isActive s) (screenshot s) (annotations s) (currentAnnotation s) (overlayShown s)
            (canvas s) (isAddingAnnotation s) (pendingText s) (textInput s) v.

(** Calls that leave the overlay object: dialogs, focus, notifications,
    the write to [chrome.storage.local], timers, and an exception that
    escapes a handler. *)
Inductive Effect : Type :=
| Alert (message : string)
| FocusTextInput
| Notification (message kind : string)
| StorageSet (shot : Screenshot)
| SetTimeoutCleanup (ms : Z)
| UncaughtTypeError.

(** The constructor. *)
Definition new_AnnotationOverlay : AnnotationOverlay :=
  {| isActive := false; screenshot := None; annotations := [];
     currentAnnotation := None; overlayShown := false; canvas := None;
     isAddingAnnotation := false; pendingText := "";
     textInput := ""; statusText := "" |}.

(** ** Coordinate mapping (first lines of both canvas listeners) *)

Local Open Scope float_scope.

(** [(e.clientX - rect.left) * (this.canvas.width / rect.width)] *)
Definition canvasX (e : Pointer) (cv : Canvas.t) : float :=
  (clientX e - left (rect e)) * (Canvas.width cv / rwidth (rect e)).

(** [(e.clientY - rect.top) * (this.canvas.height / rect.height)] *)
Definition canvasY (e : Pointer) (cv : Canvas.t) : float :=
  (clientY e - top (rect e)) * (Canvas.height cv / rheight (rect e)).

(** ** The renderer and the handlers *)

Section Overlay.

Context {host : Host}.

Local Open Scope draw_scope.

(** The callback of [this.annotations.forEach] in [drawAnnotations]. *)
Definition drawAnnotation (annotation : Annotation) : Canvas.Draw unit :=
  (* Draw arrow line *)
  ctx.strokeStyle ::= "#ff0000" ;;
  ctx.lineWidth ::= 2 ;;
  Canvas.beginPath ;;
  Canvas.moveTo (x annotation) (y annotation) ;;
  Canvas.lineTo (pointer_x annotation) (pointer_y annotation) ;;
  Canvas.stroke ;;
  (* Draw arrowhead *)
  let angle := Math_atan2 (pointer_y annotation - y annotation)
                          (pointer_x annotation - x annotation) in
  let arrowLength := 12 in
  Canvas.beginPath ;;
  Canvas.moveTo (pointer_x annotation) (pointer_y annotation) ;;
  Canvas.lineTo
    (pointer_x annotation - arrowLength * Math_cos (angle - JS.PI / 6))
    (pointer_y annotation - arrowLength * Math_sin (angle - JS.PI / 6)) ;;
  Canvas.moveTo (pointer_x annotation) (pointer_y annotation) ;;
  Canvas.lineTo
    (pointer_x annotation - arrowLength * Math_cos (angle + JS.PI / 6))
    (pointer_y annotation - arrowLength * Math_sin (angle + JS.PI / 6)) ;;
  Canvas.stroke ;;
  (* Draw pointer dot *)
  Canvas.beginPath ;;
  Canvas.arc (pointer_x annotation) (pointer_y annotation) 4 0 (2 * JS.PI) ;;
  ctx.fillStyle ::= "#ff0000" ;;
  Canvas.fill ;;
  (* Draw text background *)
  ctx.font ::= "14px Arial" ;;
  font <- Canvas.read Canvas.font ;;
  let textWidth := measureTextWidth font (text annotation) in
  let textHeight := 16 in
  let padding := 6 in
  ctx.fillStyle ::= "rgba(255, 255, 255, 0.95)" ;;
  Canvas.fillRect
    (x annotation - padding)
    (y annotation - textHeight - padding)
    (textWidth + padding * 2)
    (textHeight + padding * 2) ;;
  (* Draw text border *)
  ctx.strokeStyle ::= "#ff0000" ;;
  ctx.lineWidth ::= 1 ;;
  Canvas.strokeRect
    (x annotation - padding)
    (y annotation - textHeight - padding)
    (textWidth + padding * 2)
    (textHeight + padding * 2) ;;
  (* Draw text *)
  ctx.fillStyle ::= "#000000" ;;
  Canvas.fillText (text annotation) (x annotation) (y annotation - 4).

(** The last block of [drawAnnotations]: the annotation in progress. *)
Definition drawCurrent (current : option Annotation) : Canvas.Draw unit :=
  match current with
  | None => Canvas.ret tt
  | Some currentAnnotation =>
      ctx.fillStyle ::= "rgba(255, 255, 0, 0.8)" ;;
      font <- Canvas.read Canvas.font ;;
      let textWidth := measureTextWidth font (text currentAnnotation) in
      Canvas.fillRect
        (x currentAnnotation - 4)
        (y currentAnnotation - 20)
        (textWidth + 8)
        20 ;;
      ctx.fillStyle ::= "#000000" ;;
      Canvas.fillText (text currentAnnotation) (x currentAnnotation)
                      (y currentAnnotation - 4)
  end.

(** [drawAnnotations], as a program on the context of the canvas. *)
Definition drawAnnotations_on (anns : list Annotation) (current : option Annotation)
  : Canvas.Draw unit :=
  w <- Canvas.read Canvas.width ;;
  h <- Canvas.read Canvas.height ;;
  Canvas.clearRect 0 0 w h ;;
  Canvas.forEach drawAnnotation anns ;;
  drawCurrent current.

(** [drawAnnotations()].  Without a canvas, [this.canvas.getContext]
    throws; every caller below runs with a canvas. *)
Definition drawAnnotations (s : AnnotationOverlay) : AnnotationOverlay :=
  match canvas s with
  | None => s
  | Some cv =>
      set_canvas
        (Some (Canvas.exec (drawAnnotations_on (annotations s) (currentAnnotation s)) cv)) s
  end.

(** The dashed preview of the [mousemove] listener, drawn after
    [drawAnnotations]. *)
Definition drawPreviewArrow (current : Annotation) (px py : float) : Canvas.Draw unit :=
  ctx.strokeStyle ::= "rgba(255, 0, 0, 0.7)" ;;
  ctx.lineWidth ::= 2 ;;
  Canvas.setLineDash [5; 5] ;;
  Canvas.beginPath ;;
  Canvas.moveTo (x current) (y current) ;;
  Canvas.lineTo px py ;;
  Canvas.stroke ;;
  Canvas.setLineDash [].

End Overlay.

Section Handlers.

Context {host : Host}.

(** The [click] listener of [setupCanvasEvents].  It is registered on
    [this.canvas]: without a canvas there is no listener to run. *)
Definition onCanvasClick (e : Pointer) (s : AnnotationOverlay) : AnnotationOverlay :=
  if negb (isAddingAnnotation s) then s else
  match canvas s with
  | None => s
  | Some cv =>
      let x := canvasX e cv in
      let y := canvasY e cv in
      match currentAnnotation s with
      | None =>
          (* First click - set text position *)
          let s := set_currentAnnotation
                     (Some (mkAnnotation (JS.toString (dateNow e)) (pendingText s)
                                         x y x y (isoNow e))) s in
          set_statusText "Click where to point the arrow" s
      | Some current =>
          (* Second click - set pointer position *)
          let current := set_pointer x y current in
          (* Add to annotations array *)
          let s := set_annotations (annotations s ++ [current]) s in
          (* Reset state *)
          let s := set_currentAnnotation None s in
          let s := set_isAddingAnnotation false s in
          let s := set_canvas (Some (Canvas.set_cursor "default" cv)) s in
          (* Update status *)
          let s := set_statusText
                     (JS.lengthToString (length (annotations s)) ++ " annotations") s in
          (* Clear input *)
          let s := set_textInput "" s in
          (* Redraw *)
          drawAnnotations s
      end
  end.

(** The [mousemove] listener of [setupCanvasEvents]. *)
Definition onCanvasMouseMove (e : Pointer) (s : AnnotationOverlay) : AnnotationOverlay :=
  if negb (isAddingAnnotation s) then s else
  match currentAnnotation s, canvas s with
  | Some current, Some cv =>
      let x := canvasX e cv in
      let y := canvasY e cv in
      (* Draw preview *)
      let s := drawAnnotations s in
      match canvas s with
      | Some cv => set_canvas (Some (Canvas.exec (drawPreviewArrow current x y) cv)) s
      | None => s
      end
  | _, _ => s
  end.

(** [startAddingAnnotation()], with the dialog it opens.  The fields are
    assigned before [this.canvas.style] is read, so they keep their new
    values when that read throws for want of a canvas. *)
Definition startAddingAnnotation (s : AnnotationOverlay)
  : AnnotationOverlay * list Effect :=
  let text := JS.trim (textInput s) in
  if JS.falsy text then
    (s, [Alert "Please enter annotation text first"; FocusTextInput])
  else
    let s := set_pendingText text s in
    let s := set_isAddingAnnotation true s in
    match canvas s with
    | None => (s, [UncaughtTypeError])
    | Some cv =>
        let s := set_canvas (Some (Canvas.set_cursor "crosshair" cv)) s in
        (set_statusText "Click where to place the text" s, [])
    end.

(** [cleanup()]: the overlay element leaves the document; the canvas
    object stays referenced by [this.canvas]. *)
Definition cleanup (s : AnnotationOverlay) : AnnotationOverlay :=
  let s := set_overlayShown false s in
  let s := set_isActive false s in
  let s := set_screenshot None s in
  let s := set_annotations [] s in
  let s := set_currentAnnotation None s in
  let s := set_isAddingAnnotation false s in
  set_pendingText "" s.

(** [cancel()] *)
Definition cancel (s : AnnotationOverlay) : AnnotationOverlay := cleanup s.

(** [createOverlay()]: a previous overlay is removed, a new one is built
    with a new canvas of the display size, an empty text input and the
    status line, and appended to the document; then the annotations are
    drawn.  It is called by [startAnnotationMode] only, where
    [this.screenshot] has just been assigned.  The width and height
    attributes of a canvas hold integers: a display size that comes out
    of [Math.round], as in [popup.js], is kept, any other is converted. *)
Definition createOverlay (s : AnnotationOverlay) : AnnotationOverlay :=
  match screenshot s with
  | None => s
  | Some shot =>
      let s := set_canvas
                 (Some (Canvas.create (Canvas.sizeAttribute 300 (displayWidth shot))
                                      (Canvas.sizeAttribute 150 (displayHeight shot)))) s in
      let s := set_textInput "" s in
      let s := set_statusText
                 (JS.lengthToString (length (annotations s)) ++ " annotations") s in
      let s := set_overlayShown true s in
      drawAnnotations s
  end.

(** [startAnnotationMode(screenshot)].  [showAnnotationUI] only shows a
    tutorial that removes itself; it touches no field.  When the
    screenshot has an array of annotations, [this.annotations] is that
    very array; the script reads it through [this.annotations] only, and
    [saveAndExit] assigns it back to the screenshot before it is stored,
    so one list stands for both. *)
Definition startAnnotationMode (shot : Screenshot) (s : AnnotationOverlay)
  : AnnotationOverlay :=
  let s := set_screenshot (Some shot) s in
  let s := set_annotations
             (match sannotations shot with Some l => l | None => [] end) s in
  let s := set_isActive true s in
  createOverlay s.

(** [saveAndExit()], with the storage round trip taken as one step whose
    outcome is [stored].  A missing screenshot or a rejected storage
    call ends in the [catch] block. *)
Definition saveAndExit (stored : bool) (s : AnnotationOverlay)
  : AnnotationOverlay * list Effect :=
  match screenshot s with
  | None => (s, [Notification "Failed to save annotations" "error"])
  | Some shot =>
      let shot := mkScreenshot (sid shot) (imageData shot) (displayWidth shot)
                               (displayHeight shot) (Some (annotations s)) in
      let s := set_screenshot (Some shot) s in
      if stored then
        (s, [StorageSet shot;
             Notification "Annotations saved successfully!" "success";
             SetTimeoutCleanup 1500])
      else (s, [Notification "Failed to save annotations" "error"])
  end.

(** ** Events *)

(** What can happen to the overlay: the [startAnnotation] message, the
    user typing in the text input, the three buttons, the two canvas
    listeners, and the timer set by [saveAndExit]. *)
Inductive Event : Type :=
| StartAnnotation (shot : Screenshot)
| TypeText (value : string)
| AddAnnotationButton
| SaveButton (stored : bool)
| CancelButton
| CanvasClick (e : Pointer)
| CanvasMouseMove (e : Pointer)
| CleanupTimer.

(** The input, the buttons and the canvas are elements of the overlay:
    once it has left the document the user cannot reach them. *)
Definition needsOverlay (ev : Event) : bool :=
  match ev with
  | StartAnnotation _ | CleanupTimer => false
  | _ => true
  end.

Definition dispatch (ev : Event) (s : AnnotationOverlay)
  : AnnotationOverlay * list Effect :=
  match ev with
  | StartAnnotation shot => (startAnnotationMode shot s, [])
  | TypeText v => (set_textInput v s, [])
  | AddAnnotationButton => startAddingAnnotation s
  | SaveButton stored => saveAndExit stored s
  | CancelButton => (cancel s, [])
  | CanvasClick e => (onCanvasClick e s, [])
  | CanvasMouseMove e => (onCanvasMouseMove e s, [])
  | CleanupTimer => (cleanup s, [])
  end.

Definition step (s : AnnotationOverlay) (ev : Event) : AnnotationOverlay :=
  if needsOverlay ev && negb (overlayShown s) then s else fst (dispatch ev s).

Definition run (s : AnnotationOverlay) (evs : list Event) : AnnotationOverlay :=
  fold_left step evs s.

(** The states the overlay can be in. *)
Inductive reachable : AnnotationOverlay -> Prop :=
| reachable_new : reachable new_AnnotationOverlay
| reachable_step s ev : reachable s -> reachable (step s ev).

End Handlers.

(** ** The placement protocol read off the fields *)

Inductive PlacementState : Type :=
| Idle
| AwaitingLabelClick (pendingText : string)
| AwaitingTargetClick (pendingText : string) (labelPosition : float * float).

(** [Idle]: not adding and nothing in progress.  [AwaitingLabelClick]:
    adding, nothing in progress yet.  [AwaitingTargetClick]: adding, with
    the annotation in progress holding the text and the label position.
    An annotation in progress while not adding is none of the three. *)
Definition placementState (s : AnnotationOverlay) : option PlacementState :=
  match isAddingAnnotation s, currentAnnotation s with
  | false, None => Some Idle
  | true, None => Some (AwaitingLabelClick (pendingText s))
  | true, Some a => Some (AwaitingTargetClick (text a) (x a, y a))
  | false, Some _ => None
  end.

Definition labelPosition (a : Annotation) : float * float := (x a, y a).
Definition targetPosition (a : Annotation) : float * float := (pointer_x a, pointer_y a).

(** ** What the renderer is to paint *)

Section Scene.

Context {host : Host}.

(** The marks of one committed annotation, bottom to top: the line from
    the label to the target; the arrowhead, two segments of length 12 from
    the target at [Math.PI / 6] on either side of the direction back to
    the label; the dot of radius 4 on the target; the white box behind
    the text, as wide as the text plus 6 on each side and 28 high, its
    corner 6 to the left of and 22 above the label position; the border of
    the box; the text, 4 above the label position. *)
Definition annotationMarks (a : Annotation) : list Canvas.Paint :=
  let angle := Math_atan2 (pointer_y a - y a) (pointer_x a - x a) in
  let textWidth := measureTextWidth "14px Arial" (text a) in
  [ Canvas.Stroked
      [Canvas.MoveTo (x a) (y a); Canvas.LineTo (pointer_x a) (pointer_y a)]
      "#ff0000" 2 [];
    Canvas.Stroked
      [Canvas.MoveTo (pointer_x a) (pointer_y a);
       Canvas.LineTo (pointer_x a - 12 * Math_cos (angle - JS.PI / 6))
                     (pointer_y a - 12 * Math_sin (angle - JS.PI / 6));
       Canvas.MoveTo (pointer_x a) (pointer_y a);
       Canvas.LineTo (pointer_x a - 12 * Math_cos (angle + JS.PI / 6))
                     (pointer_y a - 12 * Math_sin (angle + JS.PI / 6))]
      "#ff0000" 2 [];
    Canvas.Filled [Canvas.Arc (pointer_x a) (pointer_y a) 4 0 (2 * JS.PI)] "#ff0000";
    Canvas.FilledRect (x a - 6) (y a - 16 - 6) (textWidth + 12) 28
                      "rgba(255, 255, 255, 0.95)";
    Canvas.StrokedRect (x a - 6) (y a - 16 - 6) (textWidth + 12) 28 "#ff0000" 1 [];
    Canvas.FilledText (text a) (x a) (y a - 4) "14px Arial" "#000000" ].

(** The marks of the annotation in progress: a yellow box and the text,
    in the font the context has at that point. *)
Definition currentMarks (font : string) (current : option Annotation)
  : list Canvas.Paint :=
  match current with
  | None => []
  | Some c =>
      [ Canvas.FilledRect (x c - 4) (y c - 20) (measureTextWidth font (text c) + 8) 20
                          "rgba(255, 255, 0, 0.8)";
        Canvas.FilledText (text c) (x c) (y c - 4) font "#000000" ]
  end.

(** The font of the context once the annotations are drawn. *)
Definition fontAfter (anns : list Annotation) (font : string) : string :=
  match anns with
  | [] => font
  | _ :: _ => "14px Arial"
  end.

(** The picture of a list of annotations and an annotation in progress. *)
Definition scene (anns : list Annotation) (current : option Annotation)
  : list Canvas.Paint :=
  flat_map annotationMarks anns ++ currentMarks (fontAfter anns "10px sans-serif") current.

End Scene.

(** What is on the canvas of the overlay. *)
Definition rendered (s : AnnotationOverlay) : option (list Canvas.Paint) :=
  option_map Canvas.layer (canvas s).

(** While the overlay is shown it has a canvas whose context draws solid
    lines and, as long as no annotation was ever drawn on it, still has
    the default font. *)
Definition canvasReady (s : AnnotationOverlay) : Prop :=
  overlayShown s = true ->
  exists cv, canvas s = Some cv
             /\ Canvas.lineDash cv = []
             /\ (annotations s = [] -> Canvas.font cv = "10px sans-serif").

(** ** Identifiers and the clock *)

(** The annotation in progress, as a list. *)
Definition inProgress (s : AnnotationOverlay) : list Annotation :=
  match currentAnnotation s with
  | Some a => [a]
  | None => []
  end.

(** The ids the overlay holds, in the order the objects were created. *)
Definition heldIds (s : AnnotationOverlay) : list string :=
  map id (annotations s ++ inProgress s).

(** The ids held are the decimal forms of increasing clock readings, all
    below [bound]. *)
Definition chronological (bound : Z) (s : AnnotationOverlay) : Prop :=
  exists ts, heldIds s = map JS.toString ts
             /\ StronglySorted Z.lt ts
             /\ Forall (fun t => (t < bound)%Z) ts.

(** The events of one session on one screenshot, with a clock that
    reads at least [bound] at the first click and more at every later
    click than at the one before. *)
Fixpoint clockIncreases (bound : Z) (evs : list Event) : bool :=
  match evs with
  | [] => true
  | StartAnnotation _ :: _ => false
  | CanvasClick e :: rest =>
      (bound <=? dateNow e)%Z && clockIncreases (dateNow e + 1) rest
  | _ :: rest => clockIncreases bound rest
  end.

(** The text that goes into a record made by placement is not empty. *)
Definition placedTextNonEmpty (s : AnnotationOverlay) : Prop :=
  (isAddingAnnotation s = true -> pendingText s <> ""%string)
  /\ (forall a, currentAnnotation s = Some a -> text a <> ""%string).

(** ** Binary64 values in mantissa-exponent form *)

(** The operations on [float] are specified on [spec_float], the
    mantissa-exponent form of a binary64 value. *)
Definition sf_finite (v : spec_float) : bool :=
  match v with
  | S754_zero _ | S754_finite _ _ _ => true
  | S754_infinity _ | S754_nan => false
  end.

Definition sf_zero (v : spec_float) : bool :=
  match v with
  | S754_zero _ => true
  | _ => false
  end.

(** ** The array written by [saveAndExit] *)

(** [array.findIndex(p)], with [None] for -1. *)
Fixpoint findIndex {A : Type} (p : A -> bool) (l : list A) : option nat :=
  match l with
  | [] => None
  | a :: l' => if p a then Some 0%nat else option_map S (findIndex p l')
  end.

(** [array[index] = v] for an index inside the array.  Past the end
    JavaScript would grow the array; [findIndex] returns no such index,
    and the list is left as it is there. *)
Fixpoint assign {A : Type} (index : nat) (v : A) (l : list A) : list A :=
  match index, l with
  | _, [] => []
  | O, _ :: l' => v :: l'
  | S i, a :: l' => a :: assign i v l'
  end.

(** The screenshot object of the overlay once [saveAndExit] has assigned
    the working list to its [annotations]. *)
Definition withAnnotations (anns : list Annotation) (shot : Screenshot) : Screenshot :=
  mkScreenshot (sid shot) (imageData shot) (displayWidth shot) (displayHeight shot)
               (Some anns).

(** The body of the [try] block of [saveAndExit] between the two storage
    calls: [result] is the value of the key [screenshots] that
    [chrome.storage.local.get] returned ([None] when the key is missing),
    the outcome is the array handed to [chrome.storage.local.set].
    Without a screenshot the first assignment throws and the [catch]
    block takes over: nothing is handed to the store. *)
Definition screenshotsToStore (result : option (list Screenshot)) (s : AnnotationOverlay)
  : option (list Screenshot) :=
  match screenshot s with
  | None => None
  | Some shot =>
      let shot := withAnnotations (annotations s) shot in
      let screenshots := match result with Some l => l | None => [] end in
      Some (match findIndex (fun x => String.eqb (sid x) (sid shot)) screenshots with
            | Some index => assign index shot screenshots
            | None => screenshots
            end)
  end.

(** The number of clicks on the canvas among the events. *)
Definition clicks (evs : list Event) : nat :=
  length (filter (fun ev => match ev with CanvasClick _ => true | _ => false end) evs).

(** ** Text without white space at its ends *)

Definition isTrimmed (t : string) : Prop := JS.trim t = t.

(** The events that keep the session on its screenshot: all but a new
    screenshot, "Cancel" and the cleanup timer. *)
Definition keepsSession (ev : Event) : bool :=
  match ev with
  | StartAnnotation _ | CancelButton | CleanupTimer => false
  | _ => true
  end.

(** ** The web application ([src/unnamed/part_000]) *)

(** The React component [ScreenshotAnnotationApp] places annotations
    with the same two clicks, on an image in the page, and hands each
    finished annotation to a server.  Its state is the value of its
    [useState] hooks; a handler runs on the state of the last render and
    its [set...] calls take effect together when it returns. *)
Module WebApp.

(** An annotation object.  The pending annotation and the body of the
    POST have no [id]; the annotations the server returns have one. *)
Record Annotation : Type := mkAnnotation {
  id : option string;
  text : string;
  x : float;
  y : float;
  pointer_x : float;
  pointer_y : float
}.

(** The hooks the placement reads and writes.  Of the current screenshot
    the handlers read the [id] only. *)
Record State : Type := mkState {
  currentScreenshot : option string;
  isAnnotating : bool;
  annotationText : string;
  annotations : list Annotation;
  pendingAnnotation : option Annotation
}.

(** What the placement lets out of the component: the POST of
    [addAnnotation] and the dialog of [startAnnotation].  The GET
    requests of [fetchScreenshots] and [fetchAnnotations], which follow
    the choice of a screenshot and a POST, are not traced. *)
Inductive Effect : Type :=
| PostAnnotation (screenshotId : string) (annotationData : Annotation)
| Alert (message : string).

(** [handleImageClick(event)]: the position is the offset of the mouse
    from the corner of the image, unscaled. *)
Definition handleImageClick (event : Pointer) (s : State) : State * list Effect :=
  match isAnnotating s, currentScreenshot s with
  | true, Some shotId =>
      let x := clientX event - left (rect event) in
      let y := clientY event - top (rect event) in
      match pendingAnnotation s with
      | Some pending =>
          (* This is the second click - set the pointer location *)
          let newAnnotation :=
            mkAnnotation (id pending) (text pending)
                         (WebApp.x pending) (WebApp.y pending) x y in
          (mkState (currentScreenshot s) false "" (annotations s) None,
           [PostAnnotation shotId newAnnotation])
      | None =>
          (* This is the first click - set the text location *)
          (mkState (currentScreenshot s) (isAnnotating s) (annotationText s)
                   (annotations s)
                   (Some (mkAnnotation None (annotationText s) x y x y)),
           [])
      end
  | _, _ => (s, [])
  end.

(** [startAnnotation()] *)
Definition startAnnotation (s : State) : State * list Effect :=
  if JS.falsy (JS.trim (annotationText s)) then
    (s, [Alert "Please enter annotation text first"])
  else
    (mkState (currentScreenshot s) true (annotationText s) (annotations s) None, []).

(** [cancelAnnotation()] *)
Definition cancelAnnotation (s : State) : State :=
  mkState (currentScreenshot s) false (annotationText s) (annotations s) None.

(** [onChange] of the text input: [setAnnotationText(e.target.value)]. *)
Definition setAnnotationText (value : string) (s : State) : State :=
  mkState (currentScreenshot s) (isAnnotating s) value (annotations s)
          (pendingAnnotation s).

(** The state of the first render: the arguments of the [useState] calls. *)
Definition initial : State := mkState None false "" [] None.

(** What happens to the component.  The annotation controls and the
    image are rendered only with a current screenshot, the "Add
    Annotation" button only while [isAnnotating] is false, and "Cancel"
    only while it is true. *)
Inductive Event : Type :=
| SelectScreenshot (shotId : string)       (* setCurrentScreenshot(screenshot) *)
| AnnotationsLoaded (data : list Annotation) (* setAnnotations(response.data) *)
| TypeText (value : string)
| AddAnnotationButton
| CancelButton
| ImageClick (event : Pointer).

Definition selectScreenshot (shotId : string) (s : State) : State :=
  mkState (Some shotId) (isAnnotating s) (annotationText s) (annotations s)
          (pendingAnnotation s).

Definition setAnnotations (data : list Annotation) (s : State) : State :=
  mkState (currentScreenshot s) (isAnnotating s) (annotationText s) data
          (pendingAnnotation s).

Definition step (ev : Event) (s : State) : State * list Effect :=
  match ev, currentScreenshot s with
  | SelectScreenshot shotId, _ => (selectScreenshot shotId s, [])
  | AnnotationsLoaded data, _ => (setAnnotations data s, [])
  | TypeText value, Some _ => (setAnnotationText value s, [])
  | AddAnnotationButton, Some _ =>
      if isAnnotating s then (s, []) else startAnnotation s
  | CancelButton, Some _ =>
      if isAnnotating s then (cancelAnnotation s, []) else (s, [])
  | ImageClick event, Some _ => handleImageClick event s
  | _, None => (s, [])
  end.

(** The state after a list of events, with the POSTs and dialogs of the
    run. *)
Fixpoint run (s : State) (evs : list Event) : State * list Effect :=
  match evs with
  | [] => (s, [])
  | ev :: evs =>
      let '(s1, fx1) := step ev s in
      let '(s2, fx2) := run s1 evs in
      (s2, (fx1 ++ fx2)%list)
  end.

Definition posts (fx : list Effect) : list (string * Annotation) :=
  flat_map (fun e => match e with
                     | PostAnnotation shotId a => [(shotId, a)]
                     | Alert _ => []
                     end) fx.

Definition isAddAnnotationButton (ev : Event) : bool :=
  match ev with AddAnnotationButton => true | _ => false end.

(** The pending annotation as a list: empty, or the one object. *)
Definition pending (s : State) : list Annotation :=
  match pendingAnnotation s with Some a => [a] | None => [] end.

Definition imageClicks (evs : list Event) : nat :=
  length (filter (fun ev => match ev with ImageClick _ => true | _ => false end) evs).

(** Assigning [canvas.width] and [canvas.height] empties the bitmap and
    puts the context back to its defaults. *)
Definition resize (w h : float) (cv : Canvas.t) : Canvas.t :=
  Canvas.mk w h (Canvas.cursor cv) "#000000" "#000000" "10px sans-serif" 1 [] [] [].

Section Draw.

Context {host : Host}.

Local Open Scope draw_scope.

(** The callback of [annotations.forEach] in [drawAnnotations]. *)
Definition drawAnnotation (annotation : Annotation) : Canvas.Draw unit :=
  (* Draw arrow/pointer line *)
  Canvas.beginPath ;;
  Canvas.moveTo (x annotation) (y annotation) ;;
  Canvas.lineTo (pointer_x annotation) (pointer_y annotation) ;;
  ctx.strokeStyle ::= "#ff0000" ;;
  ctx.lineWidth ::= 2 ;;
  Canvas.stroke ;;
  (* Draw arrowhead *)
  let angle := Math_atan2 (pointer_y annotation - y annotation)
                          (pointer_x annotation - x annotation) in
  let arrowLength := 10 in
  Canvas.beginPath ;;
  Canvas.moveTo (pointer_x annotation) (pointer_y annotation) ;;
  Canvas.lineTo
    (pointer_x annotation - arrowLength * Math_cos (angle - JS.PI / 6))
    (pointer_y annotation - arrowLength * Math_sin (angle - JS.PI / 6)) ;;
  Canvas.moveTo (pointer_x annotation) (pointer_y annotation) ;;
  Canvas.lineTo
    (pointer_x annotation - arrowLength * Math_cos (angle + JS.PI / 6))
    (pointer_y annotation - arrowLength * Math_sin (angle + JS.PI / 6)) ;;
  Canvas.stroke ;;
  (* Draw text background *)
  ctx.font ::= "14px Arial" ;;
  font <- Canvas.read Canvas.font ;;
  let textWidth := measureTextWidth font (text annotation) in
  let padding := 4 in
  ctx.fillStyle ::= "rgba(255, 255, 255, 0.9)" ;;
  Canvas.fillRect
    (x annotation - padding)
    (y annotation - 20 - padding)
    (textWidth + padding * 2)
    (20 + padding * 2) ;;
  (* Draw text *)
  ctx.fillStyle ::= "#000000" ;;
  Canvas.fillText (text annotation) (x annotation) (y annotation - 4) ;;
  (* Draw point indicator *)
  Canvas.beginPath ;;
  Canvas.arc (pointer_x annotation) (pointer_y annotation) 4 0 (2 * JS.PI) ;;
  ctx.fillStyle ::= "#ff0000" ;;
  Canvas.fill.

(** The last block of [drawAnnotations]: the pending annotation. *)
Definition drawPending (pending : option Annotation) : Canvas.Draw unit :=
  match pending with
  | None => Canvas.ret tt
  | Some pendingAnnotation =>
      ctx.fillStyle ::= "rgba(255, 255, 0, 0.7)" ;;
      font <- Canvas.read Canvas.font ;;
      Canvas.fillRect
        (x pendingAnnotation - 2)
        (y pendingAnnotation - 18)
        (measureTextWidth font (text pendingAnnotation) + 4)
        20 ;;
      ctx.fillStyle ::= "#000000" ;;
      Canvas.fillText (text pendingAnnotation) (x pendingAnnotation)
                      (y pendingAnnotation - 2)
  end.

(** [drawAnnotations()] on the canvas over an image of the given width
    and height.  [canvas] is [None] while the canvas or the image is not
    mounted; nothing is drawn then, nor without a current screenshot. *)
Definition drawAnnotations (imgWidth imgHeight : float) (canvas : option Canvas.t)
                           (s : State) : option Canvas.t :=
  match canvas, currentScreenshot s with
  | Some cv, Some _ =>
      Some (Canvas.exec
              (w <- Canvas.read Canvas.width ;;
               h <- Canvas.read Canvas.height ;;
               Canvas.clearRect 0 0 w h ;;
               Canvas.forEach drawAnnotation (annotations s) ;;
               drawPending (pendingAnnotation s))
              (resize imgWidth imgHeight cv))
  | _, _ => canvas
  end.

(** The marks of one annotation, bottom to top: line, arrowhead of
    length 10, white box, text, and the dot on top. *)
Definition annotationMarks (a : Annotation) : list Canvas.Paint :=
  let angle := Math_atan2 (pointer_y a - y a) (pointer_x a - x a) in
  let textWidth := measureTextWidth "14px Arial" (text a) in
  [ Canvas.Stroked
      [Canvas.MoveTo (x a) (y a); Canvas.LineTo (pointer_x a) (pointer_y a)]
      "#ff0000" 2 [];
    Canvas.Stroked
      [Canvas.MoveTo (pointer_x a) (pointer_y a);
       Canvas.LineTo (pointer_x a - 10 * Math_cos (angle - JS.PI / 6))
                     (pointer_y a - 10 * Math_sin (angle - JS.PI / 6));
       Canvas.MoveTo (pointer_x a) (pointer_y a);
       Canvas.LineTo (pointer_x a - 10 * Math_cos (angle + JS.PI / 6))
                     (pointer_y a - 10 * Math_sin (angle + JS.PI / 6))]
      "#ff0000" 2 [];
    Canvas.FilledRect (x a - 4) (y a - 20 - 4) (textWidth + 8) 28
                      "rgba(255, 255, 255, 0.9)";
    Canvas.FilledText (text a) (x a) (y a - 4) "14px Arial" "#000000";
    Canvas.Filled [Canvas.Arc (pointer_x a) (pointer_y a) 4 0 (2 * JS.PI)] "#ff0000" ].

End Draw.

End WebApp.

(** ** A session for the examples *)

Module Demo.

(** A host with constant trigonometry and a fixed text width: the runs
    below do not look at what these functions return. *)
Definition host : Host :=
  {| Math_atan2 := fun _ _ => 0;
     Math_cos := fun _ => 1;
     Math_sin := fun _ => 0;
     measureTextWidth := fun _ _ => 56 |}.

(** The screenshot object that [popup.js] builds: 90% of 1920 x 1080. *)
Definition shot : Screenshot :=
  mkScreenshot "1700000000000" "data:image/png;base64," 1728 972 (Some []).

(** The canvas shown at its own size in the corner of the viewport. *)
Definition unscaled : DOMRect := mkRect 0 0 1728 972.

Definition pointerAt (cx cy : float) (now : Z) : Pointer :=
  mkPointer cx cy unscaled now "2023-11-14T22:13:20.000Z".

(** The overlay opened on [shot]. *)
Definition opened : AnnotationOverlay :=
  @run host new_AnnotationOverlay [StartAnnotation shot].

(** ["Bug here"] typed and "Add Annotation" pressed. *)
Definition started : AnnotationOverlay :=
  @run host opened [TypeText "Bug here"; AddAnnotationButton].

(** The label placed at [(120, 80)]. *)
Definition labelled : AnnotationOverlay :=
  @run host started [CanvasClick (pointerAt 120 80 1700000000123)].

(** The arrow pointed at [(300, 200)]. *)
Definition committed : AnnotationOverlay :=
  @run host labelled [CanvasClick (pointerAt 300 200 1700000002500)].

(** The mouse moved to [(200, 150)] while the target click is awaited. *)
Definition hovered : AnnotationOverlay :=
@run host labelled [CanvasMouseMove (pointerAt 200 150 1700000001000)].

(** The annotation in progress of [labelled]. *)
Definition draft : Annotation :=
mkAnnotation "1700000000123" "Bug here" 120 80 120 80 "2023-11-14T22:13:20.000Z".

(** The annotation of [committed]. *)
Definition note : Annotation :=
mkAnnotation "1700000000123" "Bug here" 120 80 300 200 "2023-11-14T22:13:20.000Z".

(** A second placement started after the first was committed. *)
Definition restarted : AnnotationOverlay :=
@run host committed [TypeText "Second"; AddAnnotationButton].

(** Two placements, the clock advancing from click to click. *)
Definition twoPlacements : list Event :=
[ TypeText "Bug here"; AddAnnotationButton;
  CanvasClick (pointerAt 120 80 1700000000123);
  CanvasClick (pointerAt 300 200 1700000002500);
  TypeText "Second"; AddAnnotationButton;
  CanvasClick (pointerAt 400 300 1700000005000);
  CanvasClick (pointerAt 500 350 1700000006250) ].

(** Two placements whose label clicks read the same [Date.now()]. *)
Definition sameInstant : list Event :=
[ TypeText "Bug here"; AddAnnotationButton;
  CanvasClick (pointerAt 120 80 1700000000123);
  CanvasClick (pointerAt 300 200 1700000000123);
  TypeText "Second"; AddAnnotationButton;
  CanvasClick (pointerAt 400 300 1700000000123);
  CanvasClick (pointerAt 500 350 1700000000123) ].

(** A click while the canvas has no size on the page. *)
Definition collapsed : Pointer :=
mkPointer 5 5 (mkRect 0 0 0 0) 1700000002500 "2023-11-14T22:13:22.500Z".

(** A screenshot stored with an annotation that has no text. *)
Definition stored : Screenshot :=
mkScreenshot "1700000000000" "data:image/png;base64," 1728 972
             (Some [mkAnnotation "1" "" 10 10 20 20 "2023-11-14T22:13:20.000Z"]).

(** The canvas of the overlay while a placement is under way. *)
Definition surface : Canvas.t :=
Canvas.set_cursor "crosshair" (Canvas.create 1728 972).

End Demo.

(** * Properties *)

Local Open Scope list_scope.

(** ** Strings *)

Lemma trimStart_empty_iff (s : string) :
  JS.trimStart s = "" <-> JS.isBlank s = true.
Proof.
  induction s as [|c r IH]; cbn [JS.trimStart]; unfold JS.isBlank in *; cbn.
  - tauto.
  - destruct (JS.isWhiteSpace c); cbn; [exact IH|].
    split; discriminate.
Qed.

Lemma isBlank_trimStart (s : string) :
  JS.isBlank (JS.trimStart s) = JS.isBlank s.
Proof.
  induction s as [|c r IH]; cbn [JS.trimStart]; [reflexivity|].
  destruct (JS.isWhiteSpace c) eqn:E; [|reflexivity].
  rewrite IH. unfold JS.isBlank. cbn. now rewrite E.
Qed.

Lemma isBlank_reverse (s : string) : JS.isBlank (JS.reverse s) = JS.isBlank s.
Proof.
  unfold JS.isBlank, JS.reverse.
  rewrite list_ascii_of_string_of_list_ascii.
  generalize (list_ascii_of_string s) as l. intro l.
  induction l as [|c l IH]; [reflexivity|].
  cbn. rewrite forallb_app, IH. cbn. rewrite andb_true_r. apply andb_comm.
Qed.

Lemma reverse_empty_iff (s : string) : JS.reverse s = "" <-> s = "".
Proof.
  unfold JS.reverse. split.
  - intro H. apply (f_equal list_ascii_of_string) in H.
    rewrite list_ascii_of_string_of_list_ascii in H. cbn in H.
    destruct s as [|c r]; [reflexivity|].
    cbn in H. now apply app_eq_nil in H.
  - now intros ->.
Qed.

Lemma falsy_iff (s : string) : JS.falsy s = true <-> s = "".
Proof. destruct s; cbn; split; congruence. Qed.

(** [!text.trim()] holds exactly for the empty string and strings of
    white space. *)
Lemma falsy_trim (s : string) : JS.falsy (JS.trim s) = JS.isBlank s.
Proof.
  apply eq_true_iff_eq.
  rewrite falsy_iff. unfold JS.trim, JS.trimEnd.
  rewrite reverse_empty_iff, trimStart_empty_iff, isBlank_reverse, isBlank_trimStart.
  reflexivity.
Qed.

Lemma trim_not_empty (s : string) : JS.isBlank s = false -> JS.trim s <> "".
Proof.
  intros H E. apply falsy_iff in E. rewrite falsy_trim in E. congruence.
Qed.

(** ** The placement protocol *)

Section Placement.

Context {host : Host}.

(** Reading a placement state back into the fields. *)
Lemma placementState_Idle s :
  placementState s = Some Idle ->
  isAddingAnnotation s = false /\ currentAnnotation s = None.
Proof.
  unfold placementState.
  destruct (isAddingAnnotation s), (currentAnnotation s); intro H;
    inversion H; auto.
Qed.

Lemma placementState_AwaitingLabelClick s t :
  placementState s = Some (AwaitingLabelClick t) ->
  isAddingAnnotation s = true /\ currentAnnotation s = None /\ pendingText s = t.
Proof.
  unfold placementState.
  destruct (isAddingAnnotation s), (currentAnnotation s); intro H;
    inversion H; auto.
Qed.

Lemma placementState_AwaitingTargetClick s t p :
  placementState s = Some (AwaitingTargetClick t p) ->
  isAddingAnnotation s = true /\
  exists a, currentAnnotation s = Some a /\ text a = t /\ labelPosition a = p.
Proof.
  unfold placementState.
  destruct (isAddingAnnotation s), (currentAnnotation s) as [a|]; intro H;
    inversion H; subst. eauto.
Qed.

(** Drawing changes the canvas and nothing else. *)
Lemma drawAnnotations_fields s :
  let s' := drawAnnotations s in
  isActive s' = isActive s /\ screenshot s' = screenshot s /\
  annotations s' = annotations s /\ currentAnnotation s' = currentAnnotation s /\
  overlayShown s' = overlayShown s /\ isAddingAnnotation s' = isAddingAnnotation s /\
  pendingText s' = pendingText s /\ textInput s' = textInput s /\
  statusText s' = statusText s.
Proof.
  unfold drawAnnotations. destruct (canvas s); cbn; repeat split; reflexivity.
Qed.

(** The second click, on the fields: the annotation in progress gets its
    pointer position and is pushed; the placement is over. *)
Lemma onCanvasClick_second s cv cur e :
  isAddingAnnotation s = true -> currentAnnotation s = Some cur ->
  canvas s = Some cv ->
  let s' := onCanvasClick e s in
  annotations s' = annotations s ++ [set_pointer (canvasX e cv) (canvasY e cv) cur]
  /\ currentAnnotation s' = None /\ isAddingAnnotation s' = false
  /\ pendingText s' = pendingText s /\ textInput s' = "".
Proof.
  intros Hadd Hcur Hcv. unfold onCanvasClick. rewrite Hadd, Hcv, Hcur. cbn.
  repeat split; reflexivity.
Qed.

(** The first click, on the fields: an annotation is started with the
    pending text at the mapped position; nothing is pushed. *)
Lemma onCanvasClick_first s cv e :
  isAddingAnnotation s = true -> currentAnnotation s = None ->
  canvas s = Some cv ->
  let s' := onCanvasClick e s in
  currentAnnotation s' =
    Some (mkAnnotation (JS.toString (dateNow e)) (pendingText s)
                       (canvasX e cv) (canvasY e cv) (canvasX e cv) (canvasY e cv)
                       (isoNow e))
  /\ annotations s' = annotations s /\ isAddingAnnotation s' = true
  /\ pendingText s' = pendingText s /\ canvas s' = canvas s.
Proof.
  intros Hadd Hcur Hcv. unfold onCanvasClick. rewrite Hadd, Hcv, Hcur. cbn.
  rewrite Hadd, Hcv. repeat split; reflexivity.
Qed.

(** A click while not adding returns at once. *)
Lemma onCanvasClick_not_adding s e :
  isAddingAnnotation s = false -> onCanvasClick e s = s.
Proof. intro H. unfold onCanvasClick. now rewrite H. Qed.

(** [startAddingAnnotation] with blank text: the dialog, and no change. *)
Lemma startAddingAnnotation_blank s :
  JS.isBlank (textInput s) = true ->
  startAddingAnnotation s =
    (s, [Alert "Please enter annotation text first"; FocusTextInput]).
Proof.
  intro H. unfold startAddingAnnotation. now rewrite falsy_trim, H.
Qed.

(** [startAddingAnnotation] with text: the trimmed text becomes pending
    and the overlay is adding; the annotations and the annotation in
    progress are not touched. *)
Lemma startAddingAnnotation_text s :
  JS.isBlank (textInput s) = false ->
  let s' := fst (startAddingAnnotation s) in
  pendingText s' = JS.trim (textInput s) /\ isAddingAnnotation s' = true
  /\ currentAnnotation s' = currentAnnotation s /\ annotations s' = annotations s
  /\ textInput s' = textInput s
  /\ (forall cv, canvas s = Some cv ->
        canvas s' = Some (Canvas.set_cursor "crosshair" cv)).
Proof.
  intro H. unfold startAddingAnnotation. rewrite falsy_trim, H. cbn.
  destruct (canvas s) as [cv|]; cbn; repeat split; try reflexivity;
    intros cv' E; now inversion E.
Qed.

(** Where the text and the label position of an awaited target click
    come from: the text is the trimmed input at [startAddingAnnotation],
    the label position is the mapped position of the first click. *)
Lemma placement_starts s :
  currentAnnotation s = None -> JS.isBlank (textInput s) = false ->
  placementState (fst (startAddingAnnotation s))
  = Some (AwaitingLabelClick (JS.trim (textInput s))).
Proof.
  intros Hcur Hb.
  destruct (startAddingAnnotation_text s Hb) as (Hp & Ha & Hc & _).
  unfold placementState. rewrite Ha, Hc, Hcur, Hp. reflexivity.
Qed.

Lemma label_click s cv t e :
  canvas s = Some cv -> placementState s = Some (AwaitingLabelClick t) ->
  placementState (onCanvasClick e s)
  = Some (AwaitingTargetClick t (canvasX e cv, canvasY e cv))
  /\ annotations (onCanvasClick e s) = annotations s.
Proof.
  intros Hcv Hst.
  destruct (placementState_AwaitingLabelClick s t Hst) as (Hadd & Hcur & Hp).
  destruct (onCanvasClick_first s cv e Hadd Hcur Hcv) as (Hc' & Han & Ha' & _).
  unfold placementState. rewrite Ha', Hc'. cbn. now rewrite Hp.
Qed.

(** C1. In the state AwaitingTargetClick -- adding, with an annotation in
    progress that holds the text [t] fixed at the start of the placement
    and the label position [p] of the first click -- a click whose mapped
    position is [(canvasX e cv, canvasY e cv)] appends exactly one record
    to the annotations: its text is [t], its label position is [p], its
    target position is the mapped position of this click.  Afterwards the
    placement is Idle: nothing in progress, not adding. *)
Theorem commit_on_target_click s cv t p e :
  canvas s = Some cv ->
  placementState s = Some (AwaitingTargetClick t p) ->
  exists r,
    annotations (onCanvasClick e s) = annotations s ++ [r]
    /\ length (annotations (onCanvasClick e s)) = S (length (annotations s))
    /\ text r = t
    /\ labelPosition r = p
    /\ targetPosition r = (canvasX e cv, canvasY e cv)
    /\ placementState (onCanvasClick e s) = Some Idle
    /\ currentAnnotation (onCanvasClick e s) = None
    /\ isAddingAnnotation (onCanvasClick e s) = false.
Proof.
  intros Hcv Hst.
  destruct (placementState_AwaitingTargetClick s t p Hst)
    as (Hadd & a & Hcur & Ht & Hp).
  destruct (onCanvasClick_second s cv a e Hadd Hcur Hcv)
    as (Han & Hc' & Ha' & _).
  exists (set_pointer (canvasX e cv) (canvasY e cv) a).
  repeat split; try assumption.
  - rewrite Han, length_app. cbn. lia.
  - unfold placementState. now rewrite Ha', Hc'.
Qed.

End Placement.

Lemma commit_on_target_click_demo :
  exists r,
    annotations (@onCanvasClick Demo.host (Demo.pointerAt 300 200 1700000002500) Demo.labelled)
    = annotations Demo.labelled ++ [r]
    /\ length (annotations (@onCanvasClick Demo.host (Demo.pointerAt 300 200 1700000002500)
                                           Demo.labelled))
       = S (length (annotations Demo.labelled))
    /\ text r = "Bug here"
    /\ labelPosition r = (120, 80)
    /\ targetPosition r = (300, 200)
    /\ placementState (@onCanvasClick Demo.host (Demo.pointerAt 300 200 1700000002500)
                                      Demo.labelled) = Some Idle
    /\ currentAnnotation (@onCanvasClick Demo.host (Demo.pointerAt 300 200 1700000002500)
                                         Demo.labelled) = None
    /\ isAddingAnnotation (@onCanvasClick Demo.host (Demo.pointerAt 300 200 1700000002500)
                                          Demo.labelled) = false.
Proof.
  apply (@commit_on_target_click Demo.host Demo.labelled Demo.surface "Bug here" (120, 80)
           (Demo.pointerAt 300 200 1700000002500)); reflexivity.
Defined.

(** The scenario of the specification: ["Bug here"], a click at
    [(120, 80)], a click at [(300, 200)]. *)
Example bug_here_scenario :
  annotations Demo.committed
  = [mkAnnotation "1700000000123" "Bug here" 120 80 300 200 "2023-11-14T22:13:20.000Z"]
  /\ placementState Demo.committed = Some Idle
  /\ length (annotations Demo.committed) = S (length (annotations Demo.opened)).
Proof. repeat split; reflexivity. Qed.

Section Protocol.

Context {host : Host}.

Lemma startAnnotationMode_placement shot s :
  isAddingAnnotation (startAnnotationMode shot s) = isAddingAnnotation s
  /\ currentAnnotation (startAnnotationMode shot s) = currentAnnotation s
  /\ pendingText (startAnnotationMode shot s) = pendingText s.
Proof. repeat split; reflexivity. Qed.

Lemma saveAndExit_placement stored s :
  isAddingAnnotation (fst (saveAndExit stored s)) = isAddingAnnotation s
  /\ currentAnnotation (fst (saveAndExit stored s)) = currentAnnotation s
  /\ pendingText (fst (saveAndExit stored s)) = pendingText s
  /\ annotations (fst (saveAndExit stored s)) = annotations s.
Proof.
  unfold saveAndExit. destruct (screenshot s); [destruct stored|];
    repeat split; reflexivity.
Qed.

Lemma onCanvasMouseMove_placement e s :
  isAddingAnnotation (onCanvasMouseMove e s) = isAddingAnnotation s
  /\ currentAnnotation (onCanvasMouseMove e s) = currentAnnotation s
  /\ pendingText (onCanvasMouseMove e s) = pendingText s
  /\ annotations (onCanvasMouseMove e s) = annotations s.
Proof.
  unfold onCanvasMouseMove.
  destruct (isAddingAnnotation s) eqn:Ha; cbn; [|now rewrite Ha].
  destruct (currentAnnotation s) eqn:Hc; [|now rewrite Ha, Hc].
  destruct (canvas s) eqn:Hcv; [|now rewrite Ha, Hc].
  unfold drawAnnotations. rewrite Hcv. cbn. now rewrite Ha, Hc.
Qed.

(** C3. From Idle, with the overlay in the document:
    [startAddingAnnotation] with empty or white-space-only text opens the
    dialog "Please enter annotation text first" (the script's form of
    EmptyTextError) and returns the overlay as it was, while with any
    other text it leads to AwaitingLabelClick with the trimmed text and
    leaves the annotations as they are.  A click on the canvas changes
    nothing and raises nothing.  And whatever the event, the placement
    after it is Idle, but for "Add Annotation" pressed on an overlay in
    the document with text that is not blank: no other event advances
    the placement, and that one does. *)
Theorem idle_totality s :
  placementState s = Some Idle ->
  (overlayShown s = true -> JS.isBlank (textInput s) = true ->
   startAddingAnnotation s
   = (s, [Alert "Please enter annotation text first"; FocusTextInput]))
  /\ (overlayShown s = true -> JS.isBlank (textInput s) = false ->
      placementState (fst (startAddingAnnotation s))
      = Some (AwaitingLabelClick (JS.trim (textInput s)))
      /\ annotations (fst (startAddingAnnotation s)) = annotations s)
  /\ (forall e, dispatch (CanvasClick e) s = (s, []))
  /\ (forall ev,
        placementState (step s ev)
        = Some (match ev with
                | AddAnnotationButton =>
                    if overlayShown s && negb (JS.isBlank (textInput s))
                    then AwaitingLabelClick (JS.trim (textInput s))
                    else Idle
                | _ => Idle
                end)).
Proof.
  intro Hst. destruct (placementState_Idle s Hst) as (Hadd & Hcur).
  split; [intros _; apply startAddingAnnotation_blank|].
  split.
  { intros _ Hb. split; [now apply placement_starts|].
    now destruct (startAddingAnnotation_text s Hb) as (_ & _ & _ & Han & _). }
  split; [intro e; cbn; now rewrite onCanvasClick_not_adding|].
  intro ev. unfold step.
  destruct (overlayShown s) eqn:Hsh; cbn [negb andb].
  - rewrite andb_false_r.
    destruct ev as [shot|v| |stored| |e|e|]; cbn [dispatch fst].
    + destruct (startAnnotationMode_placement shot s) as (Ha & Hc & _).
      unfold placementState. now rewrite Ha, Hc, Hadd, Hcur.
    + exact Hst.
    + destruct (JS.isBlank (textInput s)) eqn:Hb; cbn [negb].
      * now rewrite (startAddingAnnotation_blank s Hb).
      * now apply placement_starts.
    + destruct (saveAndExit_placement stored s) as (Ha & Hc & _ & Han).
      unfold placementState. now rewrite Ha, Hc, Hadd, Hcur.
    + reflexivity.
    + now rewrite onCanvasClick_not_adding.
    + destruct (onCanvasMouseMove_placement e s) as (Ha & Hc & _ & Han).
      unfold placementState. now rewrite Ha, Hc, Hadd, Hcur.
    + reflexivity.
  - rewrite andb_true_r.
    destruct ev as [shot|v| |stored| |e|e|]; cbn [needsOverlay dispatch fst];
      try exact Hst; reflexivity.
Qed.

(** C4, as the script has it.  [cancel()] is [cleanup()]: it ends the
    whole session.  From any state the placement is Idle afterwards, the
    pending text is empty and nothing is in progress; no record is
    committed and nothing is written to the store; the working list of
    annotations is emptied and the overlay leaves the document. *)
Theorem cancel_ends_session s :
  placementState (cancel s) = Some Idle
  /\ pendingText (cancel s) = ""%string
  /\ currentAnnotation (cancel s) = None
  /\ annotations (cancel s) = []
  /\ overlayShown (cancel s) = false
  /\ screenshot (cancel s) = None
  /\ dispatch CancelButton s = (cancel s, []).
Proof. repeat split; reflexivity. Qed.


(** A handler that keeps [isAddingAnnotation] and [currentAnnotation]
    keeps the placement among the three states. *)
Ltac same_placement Ha Hc :=
  unfold placementState in *; rewrite Ha, Hc;
  destruct (isAddingAnnotation _), (currentAnnotation _);
  (discriminate || assumption).

(** The three placement states cover every state the overlay reaches: an
    annotation is in progress only while the overlay is adding. *)
Lemma step_has_placementState s ev :
  placementState s <> None -> placementState (step s ev) <> None.
Proof.
  intro Hs. unfold step.
  destruct (needsOverlay ev && negb (overlayShown s)); [assumption|].
  destruct ev as [shot|v| |stored| |e|e|]; cbn [dispatch fst].
  - destruct (startAnnotationMode_placement shot s) as (Ha & Hc & _).
    same_placement Ha Hc.
  - exact Hs.
  - destruct (JS.isBlank (textInput s)) eqn:Hb;
      [now rewrite (startAddingAnnotation_blank s Hb)|].
    destruct (startAddingAnnotation_text s Hb) as (_ & Ha & _).
    unfold placementState. rewrite Ha.
    now destruct (currentAnnotation (fst (startAddingAnnotation s))).
  - destruct (saveAndExit_placement stored s) as (Ha & Hc & _).
    same_placement Ha Hc.
  - discriminate.
  - destruct (isAddingAnnotation s) eqn:Ha;
      [|now rewrite onCanvasClick_not_adding].
    destruct (canvas s) as [cv|] eqn:Hcv;
      [|unfold onCanvasClick; now rewrite Ha, Hcv].
    destruct (currentAnnotation s) as [cur|] eqn:Hcur.
    + destruct (onCanvasClick_second s cv cur e Ha Hcur Hcv) as (_ & Hc' & Ha' & _).
      unfold placementState. now rewrite Ha', Hc'.
    + destruct (onCanvasClick_first s cv e Ha Hcur Hcv) as (Hc' & _ & Ha' & _).
      unfold placementState. now rewrite Ha', Hc'.
  - destruct (onCanvasMouseMove_placement e s) as (Ha & Hc & _).
    same_placement Ha Hc.
  - discriminate.
Qed.

(** While a target click is awaited, the text and the label position of
    the annotation in progress stay as they are under every event but a
    click on the canvas, a new screenshot and the end of the session. *)
Lemma awaited_target_is_stable s t p ev :
  placementState s = Some (AwaitingTargetClick t p) ->
  match ev with
  | TypeText _ | AddAnnotationButton | SaveButton _ | CanvasMouseMove _ =>
      placementState (step s ev) = Some (AwaitingTargetClick t p)
      /\ annotations (step s ev) = annotations s
  | _ => True
  end.
Proof.
  intro Hst. unfold step.
  destruct (placementState_AwaitingTargetClick s t p Hst)
    as (Hadd & a & Hcur & Ht & Hp).
  destruct ev as [shot|v| |stored| |e|e|]; try exact I;
    (destruct (needsOverlay _ && negb (overlayShown s)); [now split|]);
    cbn [dispatch fst].
  - now split.
  - destruct (JS.isBlank (textInput s)) eqn:Hb;
      [now rewrite (startAddingAnnotation_blank s Hb)|].
    destruct (startAddingAnnotation_text s Hb) as (_ & Ha & Hc & Han & _).
    split; [|assumption]. unfold placementState.
    rewrite Ha, Hc, Hcur, <- Ht, <- Hp. reflexivity.
  - destruct (saveAndExit_placement stored s) as (Ha & Hc & _ & Han).
    split; [|assumption]. unfold placementState.
    rewrite Ha, Hc, Hadd, Hcur, <- Ht, <- Hp. reflexivity.
  - destruct (onCanvasMouseMove_placement e s) as (Ha & Hc & _ & Han).
    split; [|assumption]. unfold placementState.
    rewrite Ha, Hc, Hadd, Hcur, <- Ht, <- Hp. reflexivity.
Qed.

(** A whole placement: text entered, "Add Annotation", a click, a click.
    One record is appended; it has the trimmed text, the mapped position
    of the first click as its label position and that of the second as
    its target position; its id and timestamp are read at the first
    click. *)
Lemma placement_session s cv e1 e2 :
  canvas s = Some cv -> currentAnnotation s = None ->
  JS.isBlank (textInput s) = false ->
  let s' := onCanvasClick e2 (onCanvasClick e1 (fst (startAddingAnnotation s))) in
  annotations s'
  = annotations s
    ++ [mkAnnotation (JS.toString (dateNow e1)) (JS.trim (textInput s))
                     (canvasX e1 cv) (canvasY e1 cv) (canvasX e2 cv) (canvasY e2 cv)
                     (isoNow e1)]
  /\ placementState s' = Some Idle.
Proof.
  intros Hcv Hcur Hb.
  destruct (startAddingAnnotation_text s Hb) as (Hp & Ha & Hc & Han & _ & Hcv1).
  specialize (Hcv1 cv Hcv). rewrite Hcur in Hc.
  set (s1 := fst (startAddingAnnotation s)) in *.
  destruct (onCanvasClick_first s1 _ e1 Ha Hc Hcv1) as (Hc2 & Han2 & Ha2 & _ & Hcv2).
  rewrite Hcv1 in Hcv2.
  set (s2 := onCanvasClick e1 s1) in *.
  destruct (onCanvasClick_second s2 _ _ e2 Ha2 Hc2 Hcv2) as (Han3 & Hc3 & Ha3 & _).
  cbv zeta. split.
  - now rewrite Han3, Han2, Han, Hp.
  - unfold placementState. now rewrite Ha3, Hc3.
Qed.

(** The placement fields are consistent in every state the overlay can
    reach: an annotation is never in progress while the overlay is not
    adding one, so the state is one of the three placement states. *)
Lemma reachable_has_placementState s : reachable s -> placementState s <> None.
Proof.
  induction 1 as [|s ev _ IH]; [discriminate|]. now apply step_has_placementState.
Qed.

End Protocol.

Lemma idle_totality_demo :
  let s := @run Demo.host Demo.opened [TypeText "Bug here"] in
  (overlayShown s = true -> JS.isBlank (textInput s) = true ->
   startAddingAnnotation s
   = (s, [Alert "Please enter annotation text first"; FocusTextInput]))
  /\ (overlayShown s = true -> JS.isBlank (textInput s) = false ->
      placementState (fst (startAddingAnnotation s))
      = Some (AwaitingLabelClick (JS.trim (textInput s)))
      /\ annotations (fst (startAddingAnnotation s)) = annotations s)
  /\ (forall e, @dispatch Demo.host (CanvasClick e) s = (s, []))
  /\ (forall ev,
        placementState (@step Demo.host s ev)
        = Some (match ev with
                | AddAnnotationButton =>
                    if overlayShown s && negb (JS.isBlank (textInput s))
                    then AwaitingLabelClick (JS.trim (textInput s))
                    else Idle
                | _ => Idle
                end)).
Proof.
  apply (@idle_totality Demo.host (@run Demo.host Demo.opened [TypeText "Bug here"])).
  reflexivity.
Defined.

(** On the overlay with ["Bug here"] in its input, "Add Annotation" leads
    from Idle to AwaitingLabelClick. *)
Example typed_text_starts_placement :
  let s := @run Demo.host Demo.opened [TypeText "Bug here"] in
  placementState s = Some Idle
  /\ placementState (@step Demo.host s AddAnnotationButton)
     = Some (AwaitingLabelClick "Bug here").
Proof. split; reflexivity. Qed.

(** The scenario of the specification: starting with the empty text fails
    and leaves the overlay as it was. *)
Example empty_text_scenario :
  textInput Demo.opened = ""%string
  /\ startAddingAnnotation Demo.opened
     = (Demo.opened, [Alert "Please enter annotation text first"; FocusTextInput]).
Proof. split; reflexivity. Qed.

(** C4, as the claim states it, fails: with one annotation committed and a
    second placement started, [cancel()] leaves no annotation. *)
Lemma cancel_loses_annotations :
  placementState Demo.restarted = Some (AwaitingLabelClick "Second")
  /\ length (annotations Demo.restarted) = 1%nat
  /\ length (annotations (cancel Demo.restarted)) <> length (annotations Demo.restarted).
Proof. repeat split. cbn. discriminate. Qed.


(** ** Binary64 arithmetic *)

Lemma SFeqb_finite_refl s m e :
  SFeqb (S754_finite s m e) (S754_finite s m e) = true.
Proof.
  unfold SFeqb, SFcompare.
  destruct s; now rewrite Z.compare_refl, Pos.compare_cont_refl.
Qed.

Lemma is_finite_spec f : PrimFloat.is_finite f = sf_finite (Prim2SF f).
Proof.
  unfold PrimFloat.is_finite, is_nan, is_infinity.
  rewrite !FloatAxioms.eqb_spec, abs_spec.
  change (Prim2SF infinity) with (S754_infinity false).
  destruct (Prim2SF f) as [s|s| |s m e]; try (now destruct s); try reflexivity.
  now rewrite SFeqb_finite_refl.
Qed.

Lemma is_zero_spec f : is_zero f = sf_zero (Prim2SF f).
Proof.
  unfold is_zero. rewrite FloatAxioms.eqb_spec.
  change (Prim2SF PrimFloat.zero) with (S754_zero false).
  destruct (Prim2SF f) as [s|s| |s m e]; try (now destruct s); reflexivity.
Qed.

(** [a / 0] is an infinity or NaN, whatever [a] is. *)
Lemma div_by_zero_not_finite a b :
  is_zero b = true -> PrimFloat.is_finite (a / b) = false.
Proof.
  rewrite is_zero_spec, is_finite_spec, div_spec. unfold SF64div.
  destruct (Prim2SF b); try discriminate. intros _.
  now destruct (Prim2SF a).
Qed.

(** A product with an infinity or NaN is an infinity or NaN. *)
Lemma mul_not_finite_r a b :
  PrimFloat.is_finite b = false -> PrimFloat.is_finite (a * b) = false.
Proof.
  rewrite !is_finite_spec, mul_spec. unfold SF64mul.
  destruct (Prim2SF b); try discriminate; intros _; now destruct (Prim2SF a).
Qed.

(** [a - a] is [+0] for a finite [a]. *)
Lemma sub_diag_zero a :
  PrimFloat.is_finite a = true -> Prim2SF (a - a) = S754_zero false.
Proof.
  rewrite is_finite_spec, sub_spec. unfold SF64sub.
  destruct (Prim2SF a) as [s|s| |s m e]; try discriminate; intros _.
  - now destruct s.
  - unfold SFsub. cbv zeta. now rewrite Z.sub_diag.
Qed.

(** [0 * b] is a zero for a finite [b]. *)
Lemma zero_mul_finite a b :
  Prim2SF a = S754_zero false -> PrimFloat.is_finite b = true ->
  is_zero (a * b) = true.
Proof.
  intro Ha. rewrite is_finite_spec, is_zero_spec, mul_spec, Ha. unfold SF64mul.
  destruct (Prim2SF b); try discriminate; reflexivity.
Qed.

(** ** Coordinate mapping *)

(** One axis of the mapping at the origin of the bounding box. *)
Lemma axis_at_origin (origin intrinsic box : float) :
  PrimFloat.is_finite origin = true ->
  PrimFloat.is_finite (intrinsic / box) = true ->
  is_zero ((origin - origin) * (intrinsic / box)) = true.
Proof.
  intros Ho Hs. apply zero_mul_finite; [now apply sub_diag_zero|assumption].
Qed.

(** One axis of the mapping over a box of size zero. *)
Lemma axis_degenerate (client origin intrinsic box : float) :
  is_zero box = true ->
  PrimFloat.is_finite ((client - origin) * (intrinsic / box)) = false.
Proof.
  intro Hz. apply mul_not_finite_r. now apply div_by_zero_not_finite.
Qed.

Section Mapping.

Context {host : Host}.

(** C2, as the script has it.  The position a click records is, on each
    axis, the binary64 value of
    [(screenPos - boundingBoxOrigin) * (intrinsicSize / boundingBoxSize)]:
    nothing rounds it to an integer.  A click on the top-left corner of
    the box maps to zero on an axis whose box origin and scale factor are
    finite.  A click on the bottom-right corner, origin plus box size,
    maps to the intrinsic size on an axis where the binary64 operations
    are exact: where [(origin + size) - origin] gives [size], and
    [size * (intrinsic / size)] gives [intrinsic]. *)
Theorem coordinate_mapping (e : Pointer) (cv : Canvas.t) :
  (forall s t,
      canvas s = Some cv -> placementState s = Some (AwaitingLabelClick t) ->
      placementState (onCanvasClick e s)
      = Some (AwaitingTargetClick t
                ((clientX e - left (rect e)) * (Canvas.width cv / rwidth (rect e)),
                 (clientY e - top (rect e)) * (Canvas.height cv / rheight (rect e)))))
  /\ (clientX e = left (rect e) ->
      PrimFloat.is_finite (left (rect e)) = true ->
      PrimFloat.is_finite (Canvas.width cv / rwidth (rect e)) = true ->
      is_zero (canvasX e cv) = true)
  /\ (clientY e = top (rect e) ->
      PrimFloat.is_finite (top (rect e)) = true ->
      PrimFloat.is_finite (Canvas.height cv / rheight (rect e)) = true ->
      is_zero (canvasY e cv) = true)
  /\ (clientX e = left (rect e) + rwidth (rect e) ->
      left (rect e) + rwidth (rect e) - left (rect e) = rwidth (rect e) ->
      rwidth (rect e) * (Canvas.width cv / rwidth (rect e)) = Canvas.width cv ->
      canvasX e cv = Canvas.width cv)
  /\ (clientY e = top (rect e) + rheight (rect e) ->
      top (rect e) + rheight (rect e) - top (rect e) = rheight (rect e) ->
      rheight (rect e) * (Canvas.height cv / rheight (rect e)) = Canvas.height cv ->
      canvasY e cv = Canvas.height cv).
Proof.
  split; [|split; [|split; [|split]]].
  - intros s t Hcv Hst. now destruct (label_click s cv t e Hcv Hst).
  - intros Hx Ho Hs. unfold canvasX. rewrite Hx. now apply axis_at_origin.
  - intros Hy Ho Hs. unfold canvasY. rewrite Hy. now apply axis_at_origin.
  - intros Hx Hsub Hmul. unfold canvasX. now rewrite Hx, Hsub.
  - intros Hy Hsub Hmul. unfold canvasY. now rewrite Hy, Hsub.
Qed.

(** C5, as the script has it.  With a bounding box of zero width or zero
    height the click listener raises nothing: the division by zero makes
    the coordinate on that axis -- x for a zero width, y for a zero
    height -- an infinity or NaN, and the click fixes the pair as the
    label position. *)
Theorem degenerate_box_maps_to_non_finite (e : Pointer) (cv : Canvas.t) s t :
  canvas s = Some cv ->
  placementState s = Some (AwaitingLabelClick t) ->
  is_zero (rwidth (rect e)) = true \/ is_zero (rheight (rect e)) = true ->
  placementState (onCanvasClick e s)
  = Some (AwaitingTargetClick t (canvasX e cv, canvasY e cv))
  /\ (is_zero (rwidth (rect e)) = true -> JS.isFinite (canvasX e cv) = false)
  /\ (is_zero (rheight (rect e)) = true -> JS.isFinite (canvasY e cv) = false)
  /\ (JS.isFinite (canvasX e cv) = false \/ JS.isFinite (canvasY e cv) = false)
  /\ dispatch (CanvasClick e) s = (onCanvasClick e s, []).
Proof.
  intros Hcv Hst Hz.
  destruct (label_click s cv t e Hcv Hst) as (Hp & _).
  assert (Hx : is_zero (rwidth (rect e)) = true -> JS.isFinite (canvasX e cv) = false)
    by (intro H; unfold JS.isFinite, canvasX; now apply axis_degenerate).
  assert (Hy : is_zero (rheight (rect e)) = true -> JS.isFinite (canvasY e cv) = false)
    by (intro H; unfold JS.isFinite, canvasY; now apply axis_degenerate).
  repeat split; try assumption.
  destruct Hz as [Hz|Hz]; [left; now apply Hx|right; now apply Hy].
Qed.

End Mapping.

Lemma coordinate_mapping_demo :
  let box := mkRect 10 20 864 486 in
  is_zero (canvasX (mkPointer 10 20 box 1700000000123 "") Demo.surface) = true
  /\ is_zero (canvasY (mkPointer 10 20 box 1700000000123 "") Demo.surface) = true
  /\ canvasX (mkPointer (10 + 864) (20 + 486) box 1700000000123 "") Demo.surface = 1728
  /\ canvasY (mkPointer (10 + 864) (20 + 486) box 1700000000123 "") Demo.surface = 972.
Proof.
  cbv zeta. refine (conj _ (conj _ (conj _ _))).
  - apply (@coordinate_mapping Demo.host
             (mkPointer 10 20 (mkRect 10 20 864 486) 1700000000123 "") Demo.surface);
      reflexivity.
  - apply (@coordinate_mapping Demo.host
             (mkPointer 10 20 (mkRect 10 20 864 486) 1700000000123 "") Demo.surface);
      reflexivity.
  - apply (@coordinate_mapping Demo.host
             (mkPointer (10 + 864) (20 + 486) (mkRect 10 20 864 486) 1700000000123 "")
             Demo.surface); reflexivity.
  - apply (@coordinate_mapping Demo.host
             (mkPointer (10 + 864) (20 + 486) (mkRect 10 20 864 486) 1700000000123 "")
             Demo.surface); reflexivity.
Defined.

(** C2, as the claim states it, fails: over the surface of 1728 x 972
    shown in a box of 1555 x 875, the bottom-right corner of the box maps
    to [(1728.0000000000002, 971.9999999999999)]. *)
Lemma bottom_right_is_rounded :
  let box := mkRect 0 0 1555 875 in
  let corner := mkPointer (0 + 1555) (0 + 875) box 1700000000123 "" in
  (canvasX corner Demo.surface =? Canvas.width Demo.surface) = false
  /\ (canvasY corner Demo.surface =? Canvas.height Demo.surface) = false
  /\ canvasX corner Demo.surface = 0x1.b000000000001p+10
  /\ canvasY corner Demo.surface = 0x1.e5fffffffffffp+9.
Proof. repeat split; reflexivity. Qed.

Lemma degenerate_box_maps_to_non_finite_demo :
  let e := mkPointer 5 5 (mkRect 0 0 0 486) 1700000000123 "" in
  placementState (@onCanvasClick Demo.host e Demo.started)
  = Some (AwaitingTargetClick "Bug here" (canvasX e Demo.surface, canvasY e Demo.surface))
  /\ (is_zero (rwidth (rect e)) = true -> JS.isFinite (canvasX e Demo.surface) = false)
  /\ (is_zero (rheight (rect e)) = true -> JS.isFinite (canvasY e Demo.surface) = false)
  /\ (JS.isFinite (canvasX e Demo.surface) = false
      \/ JS.isFinite (canvasY e Demo.surface) = false)
  /\ @dispatch Demo.host (CanvasClick e) Demo.started
     = (@onCanvasClick Demo.host e Demo.started, []).
Proof.
  apply (@degenerate_box_maps_to_non_finite Demo.host
           (mkPointer 5 5 (mkRect 0 0 0 486) 1700000000123 "") Demo.surface
           Demo.started "Bug here"); [reflexivity|reflexivity|left; reflexivity].
Defined.

(** Over a box of zero width and height 486 the x coordinate is an
    infinity and the y coordinate is the number it would be anyway. *)
Example zero_width_spoils_x_only :
  let e := mkPointer 5 5 (mkRect 0 0 0 486) 1700000000123 "" in
  canvasX e Demo.surface = infinity /\ canvasY e Demo.surface = 10.
Proof. split; reflexivity. Qed.

(** C5, as the claim states it, fails: a click at [(5, 5)] over a box of
    zero size is taken without an error, and the label position it fixes
    is [(infinity, infinity)]. *)
Lemma zero_box_click_is_silent :
  let e := mkPointer 5 5 (mkRect 0 0 0 0) 1700000000123 "" in
  @dispatch Demo.host (CanvasClick e) Demo.started
  = (@onCanvasClick Demo.host e Demo.started, [])
  /\ placementState (@onCanvasClick Demo.host e Demo.started)
     = Some (AwaitingTargetClick "Bug here" (infinity, infinity))
  /\ JS.isFinite infinity = false.
Proof. repeat split; reflexivity. Qed.

(** ** The renderer *)

Section Renderer.

Context {host : Host}.

Lemma exec_seq (m k : Canvas.Draw unit) (c : Canvas.t) :
  Canvas.exec (Canvas.bind m (fun _ => k)) c = Canvas.exec k (Canvas.exec m c).
Proof. unfold Canvas.exec, Canvas.bind. now destruct (m c). Qed.

(** The context after one annotation is drawn: the six marks are added
    to the layer, and every setting the callback assigns has its last
    assigned value. *)
Lemma drawAnnotation_exec a cv :
  Canvas.lineDash cv = [] ->
  Canvas.exec (drawAnnotation a) cv
  = Canvas.mk (Canvas.width cv) (Canvas.height cv) (Canvas.cursor cv)
              "#ff0000" "#000000" "14px Arial" 1 []
              [Canvas.Arc (pointer_x a) (pointer_y a) 4 0 (2 * JS.PI)]
              (Canvas.layer cv ++ annotationMarks a).
Proof.
  destruct cv as [w h cur ss fs fnt lw dash pth lyr]. cbn. intros ->.
  cbv -[app]. rewrite <- !app_assoc. reflexivity.
Qed.

Lemma forEach_drawAnnotation anns :
  forall cv,
    Canvas.lineDash cv = [] ->
    let cv' := Canvas.exec (Canvas.forEach drawAnnotation anns) cv in
    Canvas.layer cv' = Canvas.layer cv ++ flat_map annotationMarks anns
    /\ Canvas.font cv' = fontAfter anns (Canvas.font cv)
    /\ Canvas.lineDash cv' = []
    /\ Canvas.width cv' = Canvas.width cv
    /\ Canvas.height cv' = Canvas.height cv
    /\ Canvas.cursor cv' = Canvas.cursor cv.
Proof.
  induction anns as [|a anns IH]; intros cv Hd.
  - cbn. rewrite app_nil_r. repeat split; auto.
  - cbn [Canvas.forEach]. rewrite exec_seq, (drawAnnotation_exec a cv Hd).
    match goal with
    | |- context [Canvas.exec _ ?c] =>
        destruct (IH c eq_refl) as (Hl & Hf & Hd' & Hw & Hh & Hc)
    end.
    cbv zeta. rewrite Hl, Hf, Hd', Hw, Hh, Hc. cbn.
    rewrite <- app_assoc. repeat split. now destruct anns.
Qed.

Lemma sameRect_whole cv :
  Canvas.sameRect 0 0 (Canvas.width cv) (Canvas.height cv) cv = true.
Proof.
  unfold Canvas.sameRect.
  assert (R : forall f, PrimFloat.Leibniz.eqb f f = true)
    by (intro f; now apply FloatAxioms.Leibniz.eqb_spec).
  now rewrite !R.
Qed.

(** The whole of [drawAnnotations] on a context that draws solid lines:
    the layer holds the marks of the annotations, in their order, then
    those of the annotation in progress, and nothing else. *)
Lemma drawAnnotations_on_exec anns current cv :
  Canvas.lineDash cv = [] ->
  let cv' := Canvas.exec (drawAnnotations_on anns current) cv in
  Canvas.layer cv'
  = flat_map annotationMarks anns ++ currentMarks (fontAfter anns (Canvas.font cv)) current
  /\ Canvas.font cv' = fontAfter anns (Canvas.font cv)
  /\ Canvas.lineDash cv' = []
  /\ Canvas.width cv' = Canvas.width cv
  /\ Canvas.height cv' = Canvas.height cv
  /\ Canvas.cursor cv' = Canvas.cursor cv.
Proof.
  intro Hd. unfold drawAnnotations_on, Canvas.exec, Canvas.bind, Canvas.read,
    Canvas.clearRect, Canvas.call. cbn. rewrite sameRect_whole.
  pose proof (forEach_drawAnnotation anns (Canvas.set_layer [] cv) Hd) as H.
  cbv zeta in H. unfold Canvas.exec in H.
  destruct (Canvas.forEach drawAnnotation anns (Canvas.set_layer [] cv)) as [u c1].
  cbn in H. destruct H as (Hl & Hf & Hd' & Hw & Hh & Hc).
  destruct current as [c|]; cbn.
  - rewrite Hl, Hf. cbn. rewrite <- app_assoc. repeat split; auto.
  - rewrite Hl, app_nil_r. repeat split; auto.
Qed.

End Renderer.

Section Rendering.

Context {host : Host}.

(** C7, as the script has it.  On a context that draws solid lines, the
    layer after [drawAnnotations] holds, for each annotation in the order
    of the list (so later ones lie over earlier ones), six marks in this
    order: (1) the line from the label position to the target position;
    (2) the arrowhead at the target, two segments of the fixed length 12
    at an angle of pi/6 on either side of the direction back along the
    line; (3) the filled circle of radius 4 centred on the target; (4) a
    background rectangle filled with white of opacity 0.95, as wide as the
    measured text plus 12 and 28 high, its corner 6 to the left of and 22
    above the label position; (5) the border of that rectangle; (6) the
    text at [(x, y - 4)], 4 above the label position. *)
Theorem render_order (before after : list Annotation) (a : Annotation)
        (current : option Annotation) (cv : Canvas.t) :
  Canvas.lineDash cv = [] ->
  Canvas.layer (Canvas.exec (drawAnnotations_on (before ++ a :: after) current) cv)
  = flat_map annotationMarks before
    ++ annotationMarks a
    ++ flat_map annotationMarks after
    ++ currentMarks "14px Arial" current
  /\ annotationMarks a
     = (let angle := Math_atan2 (pointer_y a - y a) (pointer_x a - x a) in
        let textWidth := measureTextWidth "14px Arial" (text a) in
        [ Canvas.Stroked
            [Canvas.MoveTo (x a) (y a); Canvas.LineTo (pointer_x a) (pointer_y a)]
            "#ff0000" 2 [];
          Canvas.Stroked
            [Canvas.MoveTo (pointer_x a) (pointer_y a);
             Canvas.LineTo (pointer_x a - 12 * Math_cos (angle - JS.PI / 6))
                           (pointer_y a - 12 * Math_sin (angle - JS.PI / 6));
             Canvas.MoveTo (pointer_x a) (pointer_y a);
             Canvas.LineTo (pointer_x a - 12 * Math_cos (angle + JS.PI / 6))
                           (pointer_y a - 12 * Math_sin (angle + JS.PI / 6))]
            "#ff0000" 2 [];
          Canvas.Filled [Canvas.Arc (pointer_x a) (pointer_y a) 4 0 (2 * JS.PI)]
                        "#ff0000";
          Canvas.FilledRect (x a - 6) (y a - 16 - 6) (textWidth + 12) 28
                            "rgba(255, 255, 255, 0.95)";
          Canvas.StrokedRect (x a - 6) (y a - 16 - 6) (textWidth + 12) 28
                             "#ff0000" 1 [];
          Canvas.FilledText (text a) (x a) (y a - 4) "14px Arial" "#000000" ]).
Proof.
  intro Hd. split; [|reflexivity].
  destruct (drawAnnotations_on_exec (before ++ a :: after) current cv Hd) as (Hl & _).
  rewrite Hl, flat_map_app. cbn [flat_map]. rewrite <- !app_assoc.
  now destruct before.
Qed.

(** Erasing the whole bitmap first makes the earlier marks irrelevant. *)
Lemma drawAnnotations_on_forgets anns current marks cv :
  Canvas.exec (drawAnnotations_on anns current) (Canvas.set_layer marks cv)
  = Canvas.exec (drawAnnotations_on anns current) cv.
Proof.
  unfold drawAnnotations_on, Canvas.exec, Canvas.bind, Canvas.read,
    Canvas.clearRect, Canvas.call. cbn.
  change (Canvas.sameRect 0 0 (Canvas.width cv) (Canvas.height cv)
                          (Canvas.set_layer marks cv))
    with (Canvas.sameRect 0 0 (Canvas.width cv) (Canvas.height cv) cv).
  now rewrite sameRect_whole.
Qed.

(** With the canvas ready, [drawAnnotations] leaves the scene of the
    annotations and the annotation in progress on the canvas. *)
Lemma drawAnnotations_rendered s :
  canvasReady s -> overlayShown s = true ->
  rendered (drawAnnotations s) = Some (scene (annotations s) (currentAnnotation s)).
Proof.
  intros Hr Hs. destruct (Hr Hs) as (cv & Hcv & Hd & Hf).
  unfold rendered, drawAnnotations. rewrite Hcv. cbn.
  destruct (drawAnnotations_on_exec (annotations s) (currentAnnotation s) cv Hd)
    as (Hl & _).
  rewrite Hl. unfold scene. destruct (annotations s); [now rewrite Hf|reflexivity].
Qed.

Lemma drawAnnotations_canvasReady s :
  canvasReady s -> canvasReady (drawAnnotations s).
Proof.
  intros Hr Hs.
  destruct (drawAnnotations_fields s) as (_ & _ & Han & _ & Hsh & _).
  rewrite Hsh in Hs. destruct (Hr Hs) as (cv & Hcv & Hd & Hf).
  unfold drawAnnotations. rewrite Hcv. cbn.
  destruct (drawAnnotations_on_exec (annotations s) (currentAnnotation s) cv Hd)
    as (_ & Hf' & Hd' & _).
  eexists. split; [reflexivity|]. split; [assumption|].
  intro He. rewrite Hf', He. cbn. auto.
Qed.

Lemma drawPreviewArrow_exec current px py cv :
  Canvas.lineDash (Canvas.exec (drawPreviewArrow current px py) cv) = []
  /\ Canvas.font (Canvas.exec (drawPreviewArrow current px py) cv) = Canvas.font cv.
Proof. split; reflexivity. Qed.

(** The two handlers that end in [drawAnnotations], up to that call. *)
Lemma startAnnotationMode_draws shot s :
  exists s0,
    startAnnotationMode shot s = drawAnnotations s0
    /\ canvas s0 = Some (Canvas.create (Canvas.sizeAttribute 300 (displayWidth shot))
                                       (Canvas.sizeAttribute 150 (displayHeight shot)))
    /\ overlayShown s0 = true
    /\ annotations s0 = match sannotations shot with Some l => l | None => [] end
    /\ currentAnnotation s0 = currentAnnotation s.
Proof.
  unfold startAnnotationMode, createOverlay. cbn [screenshot set_screenshot
    set_annotations set_isActive].
  eexists. split; [reflexivity|]. repeat split.
Qed.

Lemma onCanvasClick_draws s cv cur e :
  isAddingAnnotation s = true -> currentAnnotation s = Some cur ->
  canvas s = Some cv ->
  exists s0,
    onCanvasClick e s = drawAnnotations s0
    /\ canvas s0 = Some (Canvas.set_cursor "default" cv)
    /\ overlayShown s0 = overlayShown s
    /\ annotations s0
       = annotations s ++ [set_pointer (canvasX e cv) (canvasY e cv) cur]
    /\ currentAnnotation s0 = None.
Proof.
  intros Ha Hcur Hc. unfold onCanvasClick. rewrite Ha, Hc, Hcur. cbn [negb].
  eexists. split; [reflexivity|]. repeat split.
Qed.

(** The canvas is ready after every event. *)
Lemma step_canvasReady s ev : canvasReady s -> canvasReady (step s ev).
Proof.
  intro Hr. unfold step.
  destruct (needsOverlay ev && negb (overlayShown s)) eqn:Hg; [assumption|].
  destruct ev as [shot|v| |stored| |e|e|]; cbn [dispatch fst].
  - (* startAnnotation *)
    destruct (startAnnotationMode_draws shot s) as (s0 & -> & Hc & Hsh & _).
    apply drawAnnotations_canvasReady. intros _. rewrite Hc. eauto.
  - exact Hr.
  - (* Add Annotation *)
    destruct (JS.isBlank (textInput s)) eqn:Hb;
      [now rewrite (startAddingAnnotation_blank s Hb)|].
    destruct (startAddingAnnotation_text s Hb) as (_ & _ & _ & Han & _ & Hcv).
    intro Hs. cbn in Hg. destruct (overlayShown s) eqn:Hsh; [|discriminate].
    destruct (Hr Hsh) as (cv & Hc & Hd & Hf).
    rewrite (Hcv cv Hc), Han. eauto.
  - (* Save & Exit *)
    unfold saveAndExit. destruct (screenshot s); [destruct stored|]; exact Hr.
  - intro Hs. discriminate.
  - (* click *)
    cbn in Hg. destruct (overlayShown s) eqn:Hsh; [|discriminate].
    destruct (Hr Hsh) as (cv & Hc & Hd & Hf).
    destruct (isAddingAnnotation s) eqn:Ha;
      [|now rewrite onCanvasClick_not_adding].
    destruct (currentAnnotation s) as [cur|] eqn:Hcur.
    + destruct (onCanvasClick_draws s cv cur e Ha Hcur Hc)
        as (s0 & -> & Hc0 & _ & Han0 & _).
      apply drawAnnotations_canvasReady. intros _. rewrite Hc0, Han0.
      eexists. split; [reflexivity|]. split; [assumption|].
      intro He. now apply app_eq_nil in He.
    + destruct (onCanvasClick_first s cv e Ha Hcur Hc) as (_ & Han & _ & _ & Hcv).
      intros _. rewrite Hcv, Han. eauto.
  - (* mousemove *)
    cbn in Hg. destruct (overlayShown s) eqn:Hsh; [|discriminate].
    unfold onCanvasMouseMove.
    destruct (isAddingAnnotation s); [|exact Hr].
    destruct (currentAnnotation s) as [cur|] eqn:Hcur; [|exact Hr].
    destruct (canvas s) as [cv|] eqn:Hc; [|exact Hr].
    cbn. pose proof (drawAnnotations_canvasReady s Hr) as Hr'.
    destruct (drawAnnotations_fields s) as (_ & _ & Han & _ & Hsh' & _).
    cbv zeta in Hsh', Han.
    assert (Hs' : overlayShown (drawAnnotations s) = true) by now rewrite Hsh'.
    destruct (Hr' Hs') as (cv' & Hc' & Hd' & Hf').
    rewrite Hc'. intros _. cbn. eexists. split; [reflexivity|].
    split; [reflexivity|]. exact Hf'.
  - intro Hs. discriminate.
Qed.

Lemma reachable_canvasReady s : reachable s -> canvasReady s.
Proof.
  induction 1 as [|s ev _ IH]; [intro Hs; discriminate|].
  now apply step_canvasReady.
Qed.

(** The overlay is adding only while it is shown, and then it has a
    canvas: the canvas assumed by the statements about clicks is there in
    every state the overlay reaches. *)
Lemma step_adding_shown s ev :
  (isAddingAnnotation s = true -> overlayShown s = true) ->
  isAddingAnnotation (step s ev) = true -> overlayShown (step s ev) = true.
Proof.
  intro Q. unfold step.
  destruct (needsOverlay ev && negb (overlayShown s)) eqn:Hg; [exact Q|].
  destruct ev as [shot|v| |stored| |e|e|]; cbn [dispatch fst];
    cbn in Hg; try discriminate; try exact Q.
  - intros _. destruct (startAnnotationMode_draws shot s) as (s0 & -> & _ & Hsh & _).
    now destruct (drawAnnotations_fields s0) as (_ & _ & _ & _ & -> & _).
  - intros _. apply negb_false_iff in Hg. unfold startAddingAnnotation.
    destruct (JS.falsy _); [assumption|]. cbn. now destruct (canvas s).
  - unfold saveAndExit. destruct (screenshot s); [destruct stored|]; exact Q.
  - intros _. apply negb_false_iff in Hg. unfold onCanvasClick.
    destruct (isAddingAnnotation s); [|assumption].
    destruct (canvas s); [|assumption].
    now destruct (currentAnnotation s).
  - intros _. apply negb_false_iff in Hg. unfold onCanvasMouseMove.
    destruct (isAddingAnnotation s); [|assumption].
    destruct (currentAnnotation s); [|assumption].
    destruct (canvas s) eqn:Hc; [|assumption].
    unfold drawAnnotations. now rewrite Hc.
Qed.

Lemma reachable_adding_has_canvas s :
  reachable s -> isAddingAnnotation s = true -> exists cv, canvas s = Some cv.
Proof.
  intros Hr Ha.
  assert (Q : isAddingAnnotation s = true -> overlayShown s = true).
  { clear Ha. induction Hr as [|s ev _ IH]; [discriminate|].
    now apply step_adding_shown. }
  destruct (reachable_canvasReady s Hr (Q Ha)) as (cv & Hcv & _). now exists cv.
Qed.

(** The two renders that handlers make before they return leave the
    scene of the fields as they are at that point. *)
Lemma startAnnotationMode_rendered shot s :
  rendered (startAnnotationMode shot s)
  = Some (scene (annotations (startAnnotationMode shot s))
                (currentAnnotation (startAnnotationMode shot s))).
Proof.
  destruct (startAnnotationMode_draws shot s) as (s0 & -> & Hc & Hsh & _).
  destruct (drawAnnotations_fields s0) as (_ & _ & -> & -> & _).
  apply drawAnnotations_rendered; [|assumption].
  intros _. rewrite Hc. eexists. split; [reflexivity|]. split; reflexivity.
Qed.

Lemma commit_rendered s cv cur e :
  reachable s -> overlayShown s = true ->
  isAddingAnnotation s = true -> currentAnnotation s = Some cur ->
  canvas s = Some cv ->
  rendered (onCanvasClick e s) = Some (scene (annotations (onCanvasClick e s)) None).
Proof.
  intros Hr Hsh Ha Hcur Hc.
  destruct (reachable_canvasReady s Hr Hsh) as (cv' & Hc' & Hd & _).
  assert (cv' = cv) as -> by congruence.
  destruct (onCanvasClick_draws s cv cur e Ha Hcur Hc)
    as (s0 & -> & Hc0 & Hsh0 & Han0 & Hcur0).
  destruct (drawAnnotations_fields s0) as (_ & _ & -> & _).
  rewrite <- Hcur0. apply drawAnnotations_rendered; [|congruence].
  intros _. rewrite Hc0, Han0. eexists. split; [reflexivity|].
  split; [assumption|]. intro He. now apply app_eq_nil in He.
Qed.

(** C8. Whenever the overlay is shown, [drawAnnotations] leaves on the
    canvas the scene of the current annotations and the annotation in
    progress, a function of these two alone: two renders with the same
    annotations and the same annotation in progress, at any two moments
    in the life of the overlay, leave the same marks.  The render begins
    by erasing the whole bitmap, so the marks that were on the canvas
    before have no part in the result. *)
Theorem render_deterministic s1 s2 :
  reachable s1 -> reachable s2 ->
  overlayShown s1 = true -> overlayShown s2 = true ->
  annotations s1 = annotations s2 ->
  currentAnnotation s1 = currentAnnotation s2 ->
  rendered (drawAnnotations s1) = rendered (drawAnnotations s2)
  /\ rendered (drawAnnotations s1)
     = Some (scene (annotations s1) (currentAnnotation s1))
  /\ (forall cv marks,
        Canvas.exec (drawAnnotations_on (annotations s1) (currentAnnotation s1))
                    (Canvas.set_layer marks cv)
        = Canvas.exec (drawAnnotations_on (annotations s1) (currentAnnotation s1)) cv).
Proof.
  intros R1 R2 H1 H2 Han Hcur.
  rewrite (drawAnnotations_rendered s1 (reachable_canvasReady s1 R1) H1).
  rewrite (drawAnnotations_rendered s2 (reachable_canvasReady s2 R2) H2).
  rewrite Han, Hcur. repeat split.
  intros cv marks. apply drawAnnotations_on_forgets.
Qed.

End Rendering.

Lemma reachable_run {host : Host} s evs : reachable s -> reachable (run s evs).
Proof.
  revert s. induction evs as [|ev evs IH]; intros s Hs; [exact Hs|].
  cbn. apply IH. now constructor.
Qed.

Lemma render_order_demo :
  Canvas.layer (Canvas.exec (@drawAnnotations_on Demo.host ([] ++ [Demo.note]) None)
                            Demo.surface)
  = [] ++ @annotationMarks Demo.host Demo.note ++ [] ++ [].
Proof.
  exact (proj1 (@render_order Demo.host [] [] Demo.note None Demo.surface eq_refl)).
Defined.

(** C7, as the claim states it, fails on two points: the text of the
    committed annotation labelled at [(120, 80)] is drawn at [(120, 76)],
    and its background is filled with white of opacity 0.95, not an
    opaque colour. *)
Lemma text_is_drawn_above_label :
  annotations Demo.committed = [Demo.note]
  /\ labelPosition Demo.note = (120, 80)
  /\ rendered Demo.committed
     = Some [ Canvas.Stroked [Canvas.MoveTo 120 80; Canvas.LineTo 300 200] "#ff0000" 2 [];
              Canvas.Stroked [Canvas.MoveTo 300 200; Canvas.LineTo 288 200;
                              Canvas.MoveTo 300 200; Canvas.LineTo 288 200]
                             "#ff0000" 2 [];
              Canvas.Filled [Canvas.Arc 300 200 4 0 (2 * JS.PI)] "#ff0000";
              Canvas.FilledRect 114 58 68 28 "rgba(255, 255, 255, 0.95)";
              Canvas.StrokedRect 114 58 68 28 "#ff0000" 1 [];
              Canvas.FilledText "Bug here" 120 76 "14px Arial" "#000000" ]
  /\ (76 =? 80) = false.
Proof. repeat split; reflexivity. Qed.

Lemma render_deterministic_demo :
  rendered (@drawAnnotations Demo.host Demo.labelled)
  = rendered (@drawAnnotations Demo.host Demo.hovered)
  /\ rendered (@drawAnnotations Demo.host Demo.labelled)
     = Some (@scene Demo.host (annotations Demo.labelled)
                    (currentAnnotation Demo.labelled))
  /\ (forall cv marks,
        Canvas.exec (@drawAnnotations_on Demo.host (annotations Demo.labelled)
                                         (currentAnnotation Demo.labelled))
                    (Canvas.set_layer marks cv)
        = Canvas.exec (@drawAnnotations_on Demo.host (annotations Demo.labelled)
                                           (currentAnnotation Demo.labelled)) cv).
Proof.
  apply (@render_deterministic Demo.host Demo.labelled Demo.hovered);
    try reflexivity;
    repeat (apply (@reachable_run Demo.host)); constructor.
Defined.

(** The canvas differs before the two renders of the example: the dashed
    preview is on one of them only. *)
Example hovered_has_preview :
  rendered Demo.labelled = Some []
  /\ rendered Demo.hovered
     = Some [ Canvas.FilledRect 116 60 64 20 "rgba(255, 255, 0, 0.8)";
              Canvas.FilledText "Bug here" 120 76 "10px sans-serif" "#000000";
              Canvas.Stroked [Canvas.MoveTo 120 80; Canvas.LineTo 200 150]
                             "rgba(255, 0, 0, 0.7)" 2 [5; 5] ].
Proof. split; reflexivity. Qed.

(** ** Identifiers *)

Lemma toString_inj (t u : Z) : JS.toString t = JS.toString u -> t = u.
Proof.
  unfold JS.toString. intro H.
  assert (N : forall z, Z.to_int z <> Decimal.Pos Decimal.Nil
                        /\ Z.to_int z <> Decimal.Neg Decimal.Nil).
  { intros [|p|p]; cbn; split; try discriminate;
      intro E; injection E as E; now apply DecimalPos.Unsigned.to_uint_nonnil in E. }
  apply (f_equal NilZero.int_of_string) in H.
  rewrite !NilZero.isi in H by apply N.
  injection H as H. now apply DecimalZ.to_int_inj.
Qed.

Lemma StronglySorted_snoc (ts : list Z) (bound t : Z) :
  StronglySorted Z.lt ts -> Forall (fun u => (u < bound)%Z) ts -> (bound <= t)%Z ->
  StronglySorted Z.lt (ts ++ [t]) /\ Forall (fun u => (u < t + 1)%Z) (ts ++ [t]).
Proof.
  intros Hs Hb Ht. induction Hs as [|u ts Hs IH Hu].
  - cbn. split; repeat constructor. lia.
  - inversion Hb as [|? ? Hub Hb']; subst. destruct (IH Hb') as (IH1 & IH2).
    cbn. split; constructor; try assumption; try lia.
    apply Forall_app. split; [assumption|]. constructor; [lia|constructor].
Qed.

Lemma StronglySorted_lt_NoDup (ts : list Z) : StronglySorted Z.lt ts -> NoDup ts.
Proof.
  induction 1 as [|u ts Hs IH Hu]; constructor; [|assumption].
  intro Hin. rewrite Forall_forall in Hu. specialize (Hu u Hin). lia.
Qed.

Lemma chronological_weaken b b' s :
  (b <= b')%Z -> chronological b s -> chronological b' s.
Proof.
  intros Hb (ts & Hi & Hs & Hf). exists ts. repeat split; try assumption.
  eapply Forall_impl; [|exact Hf]. cbn. intros. lia.
Qed.

Section Identifiers.

Context {host : Host}.

(** What an event of a session does to the ids held: nothing, or it
    drops them all, or -- a first click -- it adds the decimal form of
    the clock reading of that click at the end. *)
Lemma step_heldIds s ev :
  (forall shot, ev <> StartAnnotation shot) ->
  heldIds (step s ev) = heldIds s
  \/ heldIds (step s ev) = []
  \/ exists e, ev = CanvasClick e
               /\ heldIds (step s ev) = heldIds s ++ [JS.toString (dateNow e)].
Proof.
  intro Hev. unfold step.
  destruct (needsOverlay ev && negb (overlayShown s)); [now left|].
  destruct ev as [shot|v| |stored| |e|e|]; cbn [dispatch fst].
  - now destruct (Hev shot).
  - now left.
  - left. destruct (JS.isBlank (textInput s)) eqn:Hb;
      [now rewrite (startAddingAnnotation_blank s Hb)|].
    destruct (startAddingAnnotation_text s Hb) as (_ & _ & Hc & Han & _).
    unfold heldIds, inProgress. now rewrite Hc, Han.
  - left. destruct (saveAndExit_placement stored s) as (_ & Hc & _ & Han).
    unfold heldIds, inProgress. now rewrite Hc, Han.
  - right. now left.
  - destruct (isAddingAnnotation s) eqn:Ha;
      [|left; now rewrite onCanvasClick_not_adding].
    destruct (canvas s) as [cv|] eqn:Hcv;
      [|left; unfold onCanvasClick; now rewrite Ha, Hcv].
    destruct (currentAnnotation s) as [cur|] eqn:Hcur.
    + left. destruct (onCanvasClick_second s cv cur e Ha Hcur Hcv) as (Han & Hc & _).
      unfold heldIds, inProgress. rewrite Han, Hc, Hcur.
      now rewrite app_nil_r, !map_app.
    + right. right. exists e. split; [reflexivity|].
      destruct (onCanvasClick_first s cv e Ha Hcur Hcv) as (Hc & Han & _).
      unfold heldIds, inProgress. rewrite Han, Hc, Hcur. cbn.
      now rewrite app_nil_r, map_app.
  - left. destruct (onCanvasMouseMove_placement e s) as (_ & Hc & _ & Han).
    unfold heldIds, inProgress. now rewrite Hc, Han.
  - right. now left.
Qed.

Lemma run_chronological evs :
  forall s bound,
    chronological bound s -> clockIncreases bound evs = true ->
    exists bound', chronological bound' (run s evs).
Proof.
  induction evs as [|ev evs IH]; intros s bound Hc Hk; [now exists bound|].
  cbn [run fold_left]. change (fold_left step evs (step s ev)) with (run (step s ev) evs).
  assert (Hev : forall shot, ev <> StartAnnotation shot)
    by (intros shot ->; discriminate).
  destruct (step_heldIds s ev Hev) as [Hi|[Hi|(e & -> & Hi)]].
  - apply (IH (step s ev) (match ev with CanvasClick e => dateNow e + 1 | _ => bound end)%Z).
    + destruct Hc as (ts & Hts & Hs & Hf).
      assert (Hc' : chronological bound (step s ev)) by (exists ts; now rewrite Hi).
      destruct ev; try assumption.
      cbn in Hk. apply andb_prop in Hk as (Hb & _). apply Z.leb_le in Hb.
      eapply chronological_weaken; [|exact Hc']. lia.
    + destruct ev; try assumption; try discriminate.
      cbn in Hk. now apply andb_prop in Hk.
  - apply (IH (step s ev) (match ev with CanvasClick e => dateNow e + 1 | _ => bound end)%Z).
    + exists []. rewrite Hi. repeat split; constructor.
    + destruct ev; try assumption; try discriminate.
      cbn in Hk. now apply andb_prop in Hk.
  - cbn in Hk. apply andb_prop in Hk as (Hb & Hk). apply Z.leb_le in Hb.
    apply (IH _ (dateNow e + 1)%Z); [|assumption].
    destruct Hc as (ts & Hts & Hs & Hf).
    destruct (StronglySorted_snoc ts bound (dateNow e) Hs Hf Hb) as (Hs' & Hf').
    exists (ts ++ [dateNow e]). rewrite Hi, Hts, map_app. now repeat split.
Qed.

(** C9, as the script has it.  The id of a record is the decimal form of
    [Date.now()] at its label click.  In a session on one screenshot that
    starts with ids that are increasing clock readings below [bound], and
    in which the clock reads at least [bound] at the first click and more
    at every click than at the click before, the ids of the annotations
    are pairwise distinct and are increasing clock readings in the order
    of the list. *)
Theorem ids_distinct_under_increasing_clock s bound evs :
  chronological bound s ->
  clockIncreases bound evs = true ->
  NoDup (map id (annotations (run s evs)))
  /\ exists ts, map id (annotations (run s evs)) = map JS.toString ts
                /\ StronglySorted Z.lt ts.
Proof.
  intros Hc Hk.
  destruct (run_chronological evs s bound Hc Hk) as (b' & ts & Hts & Hs & _).
  unfold heldIds in Hts. rewrite map_app in Hts.
  symmetry in Hts. apply map_eq_app in Hts as (ts1 & ts2 & -> & Hts1 & _).
  assert (Hs1 : StronglySorted Z.lt ts1).
  { clear -Hs. induction ts1 as [|t ts1 IH]; [constructor|].
    cbn in Hs. inversion Hs as [|? ? Hs' Hf]; subst.
    constructor; [now apply IH|]. now apply Forall_app in Hf. }
  split; [|exists ts1; now split].
  rewrite <- Hts1. apply Injective_map_NoDup.
  - intros t u. apply toString_inj.
  - now apply StronglySorted_lt_NoDup.
Qed.

(** The id is fixed by the first click. *)
Lemma id_is_label_click_time s cv e :
  isAddingAnnotation s = true -> currentAnnotation s = None -> canvas s = Some cv ->
  option_map id (currentAnnotation (onCanvasClick e s)) = Some (JS.toString (dateNow e)).
Proof.
  intros Ha Hc Hcv. destruct (onCanvasClick_first s cv e Ha Hc Hcv) as (-> & _).
  reflexivity.
Qed.

End Identifiers.

Lemma ids_distinct_under_increasing_clock_demo :
  NoDup (map id (annotations (@run Demo.host Demo.opened Demo.twoPlacements)))
  /\ exists ts,
       map id (annotations (@run Demo.host Demo.opened Demo.twoPlacements))
       = map JS.toString ts
       /\ StronglySorted Z.lt ts.
Proof.
  apply (@ids_distinct_under_increasing_clock Demo.host Demo.opened 0%Z
           Demo.twoPlacements).
  - exists []. repeat split; constructor.
  - reflexivity.
Defined.

(** C9, as the claim states it, fails: two placements whose label clicks
    read the same millisecond get the same id. *)
Lemma same_millisecond_same_id :
  map id (annotations (@run Demo.host Demo.opened Demo.sameInstant))
  = ["1700000000123"%string; "1700000000123"%string]
  /\ ~ NoDup (map id (annotations (@run Demo.host Demo.opened Demo.sameInstant))).
Proof.
  split; [reflexivity|].
  change (map id (annotations (@run Demo.host Demo.opened Demo.sameInstant)))
    with ["1700000000123"%string; "1700000000123"%string].
  intro H. inversion H as [|? ? Hn _]. apply Hn. now left.
Qed.

(** ** No validation *)

Section Validation.

Context {host : Host}.

Lemma step_placedTextNonEmpty s ev :
  placedTextNonEmpty s -> placedTextNonEmpty (step s ev).
Proof.
  intros (Hp & Hc). unfold step.
  destruct (needsOverlay ev && negb (overlayShown s)); [now split|].
  destruct ev as [shot|v| |stored| |e|e|]; cbn [dispatch fst].
  - destruct (startAnnotationMode_placement shot s) as (Ha & Hcur & Hpt).
    split; [rewrite Ha, Hpt|intro a; rewrite Hcur]; auto.
  - now split.
  - destruct (JS.isBlank (textInput s)) eqn:Hb;
      [rewrite (startAddingAnnotation_blank s Hb); now split|].
    destruct (startAddingAnnotation_text s Hb) as (Hpt & _ & Hcur & _).
    split; [intros _; rewrite Hpt; now apply trim_not_empty|].
    intro a. rewrite Hcur. auto.
  - destruct (saveAndExit_placement stored s) as (Ha & Hcur & Hpt & _).
    split; [rewrite Ha, Hpt|intro a; rewrite Hcur]; auto.
  - split; [discriminate|intro a; discriminate].
  - destruct (isAddingAnnotation s) eqn:Ha;
      [|rewrite onCanvasClick_not_adding by assumption; split; [congruence|exact Hc]].
    destruct (canvas s) as [cv|] eqn:Hcv;
      [|unfold onCanvasClick; rewrite Ha, Hcv; split; [intros _; now apply Hp|exact Hc]].
    destruct (currentAnnotation s) as [cur|] eqn:Hcur.
    + destruct (onCanvasClick_second s cv cur e Ha Hcur Hcv) as (_ & Hc' & Ha' & _).
      split; [rewrite Ha'; discriminate|intro a; rewrite Hc'; discriminate].
    + destruct (onCanvasClick_first s cv e Ha Hcur Hcv) as (Hc' & _ & _ & Hpt & _).
      split; [intros _; rewrite Hpt; auto|].
      intros a. rewrite Hc'. intro E. injection E as <-. cbn. auto.
  - destruct (onCanvasMouseMove_placement e s) as (Ha & Hcur & Hpt & _).
    split; [rewrite Ha, Hpt|intro a; rewrite Hcur]; auto.
  - split; [discriminate|intro a; discriminate].
Qed.

Lemma reachable_placedTextNonEmpty s : reachable s -> placedTextNonEmpty s.
Proof.
  induction 1 as [|s ev _ IH]; [split; [discriminate|intro a; discriminate]|].
  now apply step_placedTextNonEmpty.
Qed.

(** C6, as the script has it.  Nothing validates a record.  The second
    click appends the annotation in progress with the mapped position of
    the click as its target, whatever the numbers are -- finite or not,
    inside the image or not -- and raises nothing.  Its text is not empty,
    because [startAddingAnnotation] refuses blank text.  The annotations
    that come with a screenshot become the working list as they are. *)
Theorem commit_is_not_validated s cv cur e :
  reachable s ->
  canvas s = Some cv ->
  isAddingAnnotation s = true ->
  currentAnnotation s = Some cur ->
  annotations (onCanvasClick e s)
  = annotations s ++ [set_pointer (canvasX e cv) (canvasY e cv) cur]
  /\ dispatch (CanvasClick e) s = (onCanvasClick e s, [])
  /\ text cur <> ""%string
  /\ (forall shot records,
        sannotations shot = Some records ->
        annotations (startAnnotationMode shot s) = records).
Proof.
  intros Hr Hcv Ha Hcur.
  destruct (onCanvasClick_second s cv cur e Ha Hcur Hcv) as (Han & _).
  destruct (reachable_placedTextNonEmpty s Hr) as (_ & Ht).
  repeat split; auto.
  intros shot records Hs.
  destruct (startAnnotationMode_draws shot s) as (s0 & -> & _ & _ & Han0 & _).
  destruct (drawAnnotations_fields s0) as (_ & _ & -> & _).
  now rewrite Han0, Hs.
Qed.

End Validation.

Lemma commit_is_not_validated_demo :
  annotations (@onCanvasClick Demo.host Demo.collapsed Demo.labelled)
  = annotations Demo.labelled
    ++ [set_pointer (canvasX Demo.collapsed Demo.surface)
                    (canvasY Demo.collapsed Demo.surface) Demo.draft]
  /\ @dispatch Demo.host (CanvasClick Demo.collapsed) Demo.labelled
     = (@onCanvasClick Demo.host Demo.collapsed Demo.labelled, [])
  /\ text Demo.draft <> ""%string
  /\ (forall shot records,
        sannotations shot = Some records ->
        annotations (@startAnnotationMode Demo.host shot Demo.labelled) = records).
Proof.
  apply (@commit_is_not_validated Demo.host Demo.labelled Demo.surface Demo.draft
           Demo.collapsed); try reflexivity.
  repeat (apply (@reachable_run Demo.host)). constructor.
Defined.

(** C6, as the claim states it, fails: a second click over a canvas with
    no size commits a record whose target position is not finite, and a
    stored record with empty text enters the working list when its
    screenshot is opened. *)
Lemma non_finite_record_is_committed :
  annotations (@run Demo.host Demo.labelled [CanvasClick Demo.collapsed])
  = [mkAnnotation "1700000000123" "Bug here" 120 80 infinity infinity
                  "2023-11-14T22:13:20.000Z"]
  /\ JS.isFinite infinity = false
  /\ annotations (@run Demo.host new_AnnotationOverlay [StartAnnotation Demo.stored])
     = [mkAnnotation "1" "" 10 10 20 20 "2023-11-14T22:13:20.000Z"].
Proof. repeat split; reflexivity. Qed.

(** * More of the overlay *)

(** ** Moving the mouse *)

Section Hover.

Context {host : Host}.

Lemma step_reachable_adding_shown s :
  reachable s -> isAddingAnnotation s = true -> overlayShown s = true.
Proof.
  induction 1 as [|s ev _ IH]; [discriminate|]. now apply step_adding_shown.
Qed.

Lemma drawPreviewArrow_layer current px py cv :
  Canvas.layer (Canvas.exec (drawPreviewArrow current px py) cv)
  = Canvas.layer cv
    ++ [Canvas.Stroked [Canvas.MoveTo (x current) (y current); Canvas.LineTo px py]
                       "rgba(255, 0, 0, 0.7)" 2 [5; 5]].
Proof. reflexivity. Qed.

(** The [mousemove] listener while a target click is awaited: the canvas
    is redrawn from nothing -- the committed annotations, then the yellow
    box and the text of the annotation in progress, in the font the
    context is left with (["14px Arial"] once annotations were drawn, the
    default ["10px sans-serif"] while there are none) -- and one dashed
    line is added from the label position to the mapped position of the
    mouse.  The context is back to solid lines afterwards, and neither
    the annotations nor the annotation in progress change. *)
Theorem hover_draws_preview s cur e :
  reachable s ->
  isAddingAnnotation s = true ->
  currentAnnotation s = Some cur ->
  exists cv,
    canvas s = Some cv
    /\ rendered (onCanvasMouseMove e s)
       = Some (flat_map annotationMarks (annotations s)
               ++ (let font := match annotations s with
                               | [] => "10px sans-serif"
                               | _ :: _ => "14px Arial"
                               end in
                   [ Canvas.FilledRect (x cur - 4) (y cur - 20)
                                       (measureTextWidth font (text cur) + 8) 20
                                       "rgba(255, 255, 0, 0.8)";
                     Canvas.FilledText (text cur) (x cur) (y cur - 4) font "#000000";
                     Canvas.Stroked [Canvas.MoveTo (x cur) (y cur);
                                     Canvas.LineTo (canvasX e cv) (canvasY e cv)]
                                    "rgba(255, 0, 0, 0.7)" 2 [5; 5] ]))
    /\ option_map Canvas.lineDash (canvas (onCanvasMouseMove e s)) = Some []
    /\ annotations (onCanvasMouseMove e s) = annotations s
    /\ currentAnnotation (onCanvasMouseMove e s) = Some cur
    /\ isAddingAnnotation (onCanvasMouseMove e s) = true.
Proof.
  intros Hr Ha Hcur.
  pose proof (step_reachable_adding_shown s Hr Ha) as Hsh.
  destruct (reachable_canvasReady s Hr Hsh) as (cv & Hcv & Hd & Hf).
  exists cv. split; [assumption|].
  destruct (onCanvasMouseMove_placement e s) as (Ha' & Hc' & _ & Han').
  rewrite Ha', Hc', Han'. repeat split; try assumption.
  - unfold rendered, onCanvasMouseMove, drawAnnotations. rewrite Ha, Hcur, Hcv. cbn.
    destruct (drawAnnotations_on_exec (annotations s) (Some cur) cv Hd) as (Hl & _).
    rewrite Hl. f_equal. rewrite <- app_assoc. f_equal.
    destruct (annotations s); [rewrite Hf by reflexivity|]; reflexivity.
  - unfold onCanvasMouseMove, drawAnnotations. now rewrite Ha, Hcur, Hcv.
Qed.

(** The [mousemove] listener never touches a field but the canvas: the
    overlay it returns is the overlay it was given with, at most, another
    canvas, so each of the nine other fields is as it was.  Unless a
    target click is awaited it returns at once: the overlay, canvas
    included, is as it was. *)
Theorem hover_is_inert s e :
  onCanvasMouseMove e s = set_canvas (canvas (onCanvasMouseMove e s)) s
  /\ isActive (onCanvasMouseMove e s) = isActive s
  /\ annotations (onCanvasMouseMove e s) = annotations s
  /\ currentAnnotation (onCanvasMouseMove e s) = currentAnnotation s
  /\ isAddingAnnotation (onCanvasMouseMove e s) = isAddingAnnotation s
  /\ pendingText (onCanvasMouseMove e s) = pendingText s
  /\ textInput (onCanvasMouseMove e s) = textInput s
  /\ statusText (onCanvasMouseMove e s) = statusText s
  /\ screenshot (onCanvasMouseMove e s) = screenshot s
  /\ overlayShown (onCanvasMouseMove e s) = overlayShown s
  /\ (isAddingAnnotation s = false \/ currentAnnotation s = None ->
      onCanvasMouseMove e s = s).
Proof.
  unfold onCanvasMouseMove, drawAnnotations.
  destruct s as [act shot anns cur shown cv adding pend input status].
  destruct adding, cur as [cur|], cv as [cv|]; cbn; repeat split;
    intros [H|H]; discriminate.
Qed.

End Hover.

(** ** Opening a screenshot *)

Section Opening.

Context {host : Host}.

(** The fields of the overlay after [startAnnotationMode]. *)
Lemma startAnnotationMode_fields shot s :
  let s' := startAnnotationMode shot s in
  annotations s' = match sannotations shot with Some l => l | None => [] end
  /\ screenshot s' = Some shot
  /\ isActive s' = true
  /\ overlayShown s' = true
  /\ textInput s' = ""%string
  /\ statusText s'
     = (JS.lengthToString (length (annotations s')) ++ " annotations")%string
  /\ (exists cv, canvas s' = Some cv
                 /\ Canvas.width cv = Canvas.sizeAttribute 300 (displayWidth shot)
                 /\ Canvas.height cv = Canvas.sizeAttribute 150 (displayHeight shot)
                 /\ Canvas.cursor cv = "crosshair"%string
                 /\ Canvas.layer cv = scene (annotations s') (currentAnnotation s)).
Proof.
  cbv zeta.
  pose proof (startAnnotationMode_rendered shot s) as Hr.
  destruct (startAnnotationMode_placement shot s) as (Ha & Hc & Hp).
  rewrite Hc in Hr.
  destruct (startAnnotationMode_draws shot s) as (s0 & E & Hcv & Hsh & Han & _).
  assert (Han' : annotations (startAnnotationMode shot s)
                 = match sannotations shot with Some l => l | None => [] end).
  { rewrite E. now destruct (drawAnnotations_fields s0) as (_ & _ & -> & _). }
  repeat split; try assumption; try reflexivity.
  unfold rendered in Hr.
  assert (Hc0 : exists cv, canvas (startAnnotationMode shot s) = Some cv
                           /\ Canvas.width cv
                              = Canvas.sizeAttribute 300 (displayWidth shot)
                           /\ Canvas.height cv
                              = Canvas.sizeAttribute 150 (displayHeight shot)
                           /\ Canvas.cursor cv = "crosshair"%string).
  { rewrite E. unfold drawAnnotations. rewrite Hcv. cbn -[Canvas.sizeAttribute].
    eexists. split; [reflexivity|].
    destruct (drawAnnotations_on_exec (annotations s0) (currentAnnotation s0)
                (Canvas.create (Canvas.sizeAttribute 300 (displayWidth shot))
                               (Canvas.sizeAttribute 150 (displayHeight shot))) eq_refl)
      as (_ & _ & _ & Hw & Hh & Hcu).
    now rewrite Hw, Hh, Hcu. }
  destruct Hc0 as (cv & Hcv' & Hw & Hh & Hcu). exists cv.
  rewrite Hcv' in Hr. cbn in Hr. injection Hr as Hr. now repeat split.
Qed.

(** [startAnnotationMode]: the working list becomes the annotations of
    the screenshot, the empty list when the screenshot has none; the
    overlay is shown with an empty text input, the count of annotations
    as its status and a new canvas on which the annotations are drawn.
    The width and the height of the canvas are the display sizes as the
    attributes take them: converted to [unsigned long], with 300 and 150
    in place of a value out of range.  The placement fields are not
    reset: what was in progress before the message is still in progress
    and is drawn on the new canvas. *)
Theorem opening_loads_and_draws shot s :
  let s' := startAnnotationMode shot s in
  annotations s' = match sannotations shot with Some l => l | None => [] end
  /\ screenshot s' = Some shot
  /\ isActive s' = true
  /\ overlayShown s' = true
  /\ textInput s' = ""%string
  /\ statusText s'
     = (JS.lengthToString (length (annotations s')) ++ " annotations")%string
  /\ (exists cv, canvas s' = Some cv
                 /\ Canvas.width cv = Canvas.sizeAttribute 300 (displayWidth shot)
                 /\ Canvas.height cv = Canvas.sizeAttribute 150 (displayHeight shot)
                 /\ Canvas.cursor cv = "crosshair"%string
                 /\ Canvas.layer cv = scene (annotations s') (currentAnnotation s))
  /\ isAddingAnnotation s' = isAddingAnnotation s
  /\ currentAnnotation s' = currentAnnotation s
  /\ pendingText s' = pendingText s.
Proof.
  cbv zeta.
  destruct (startAnnotationMode_fields shot s) as (H1 & H2 & H3 & H4 & H5 & H6 & H7).
  destruct (startAnnotationMode_placement shot s) as (Ha & Hc & Hp).
  repeat (split; [assumption|]). assumption.
Qed.

(** A screenshot that arrives while a target click is awaited does not
    end the placement: the next click appends the annotation in progress,
    with the text and label position it had, to the annotations of the
    new screenshot; its target is the click mapped on the new canvas,
    whose size is the display size of the new screenshot as the
    attributes take it. *)
Theorem reopening_keeps_placement shot s t p e :
  placementState s = Some (AwaitingTargetClick t p) ->
  placementState (startAnnotationMode shot s) = Some (AwaitingTargetClick t p)
  /\ exists r,
       annotations (onCanvasClick e (startAnnotationMode shot s))
       = match sannotations shot with Some l => l | None => [] end ++ [r]
       /\ text r = t
       /\ labelPosition r = p
       /\ targetPosition r
          = (canvasX e (Canvas.create (Canvas.sizeAttribute 300 (displayWidth shot))
                                      (Canvas.sizeAttribute 150 (displayHeight shot))),
             canvasY e (Canvas.create (Canvas.sizeAttribute 300 (displayWidth shot))
                                      (Canvas.sizeAttribute 150 (displayHeight shot)))).
Proof.
  intro Hst.
  destruct (placementState_AwaitingTargetClick s t p Hst) as (Ha & a & Hc & Ht & Hp).
  destruct (startAnnotationMode_fields shot s)
    as (Han & _ & _ & _ & _ & _ & (cv & Hcv & Hw & Hh & _)).
  destruct (startAnnotationMode_placement shot s) as (Ha' & Hc' & _).
  rewrite Ha in Ha'. rewrite Hc in Hc'.
  split; [unfold placementState; rewrite Ha', Hc', <- Ht, <- Hp; reflexivity|].
  destruct (onCanvasClick_second _ cv a e Ha' Hc' Hcv) as (Han2 & _).
  exists (set_pointer (canvasX e cv) (canvasY e cv) a).
  rewrite Han2, Han. repeat split; try assumption.
  unfold targetPosition, canvasX, canvasY. cbn. now rewrite Hw, Hh.
Qed.

End Opening.

(** A display size with a fraction: the canvas is 1728 x 972 for a
    screenshot of 1728.5 x 972.75. *)
Example fractional_display_size_is_truncated :
  let shot := mkScreenshot "1700000000000" "data:image/png;base64," 1728.5 972.75 None in
  option_map Canvas.width
    (canvas (@startAnnotationMode Demo.host shot new_AnnotationOverlay)) = Some 1728
  /\ option_map Canvas.height
       (canvas (@startAnnotationMode Demo.host shot new_AnnotationOverlay)) = Some 972.
Proof. split; reflexivity. Qed.

(** ** What the clicks show *)

Section Feedback.

Context {host : Host}.

(** The first click draws nothing and reads the clock: the canvas is as
    it was (the box of the annotation in progress appears with the next
    move of the mouse), the status asks for the second click, and the
    annotation in progress has the decimal [Date.now()] as its id, the
    ISO time as its timestamp and the label position as its provisional
    target. *)
Theorem label_click_feedback s cv t e :
  canvas s = Some cv ->
  placementState s = Some (AwaitingLabelClick t) ->
  currentAnnotation (onCanvasClick e s)
  = Some (mkAnnotation (JS.toString (dateNow e)) t
                       (canvasX e cv) (canvasY e cv) (canvasX e cv) (canvasY e cv)
                       (isoNow e))
  /\ canvas (onCanvasClick e s) = Some cv
  /\ statusText (onCanvasClick e s) = "Click where to point the arrow"%string
  /\ textInput (onCanvasClick e s) = textInput s
  /\ pendingText (onCanvasClick e s) = t.
Proof.
  intros Hcv Hst.
  destruct (placementState_AwaitingLabelClick s t Hst) as (Ha & Hc & Hp).
  unfold onCanvasClick. rewrite Ha, Hcv, Hc. cbn. rewrite Hcv, Hp.
  repeat split; reflexivity.
Qed.

(** The second click, as the user sees it: the status shows the new
    number of annotations, the text input is emptied, the cursor is the
    default one, and the canvas shows the annotations, the new one on
    top, with nothing in progress. *)
Theorem commit_feedback s cur e :
  reachable s ->
  isAddingAnnotation s = true ->
  currentAnnotation s = Some cur ->
  statusText (onCanvasClick e s)
  = (JS.lengthToString (S (length (annotations s))) ++ " annotations")%string
  /\ textInput (onCanvasClick e s) = ""%string
  /\ option_map Canvas.cursor (canvas (onCanvasClick e s)) = Some "default"%string
  /\ rendered (onCanvasClick e s)
     = Some (flat_map annotationMarks (annotations (onCanvasClick e s))).
Proof.
  intros Hr Ha Hcur.
  pose proof (step_reachable_adding_shown s Hr Ha) as Hsh.
  destruct (reachable_canvasReady s Hr Hsh) as (cv & Hcv & Hd & _).
  pose proof (commit_rendered s cv cur e Hr Hsh Ha Hcur Hcv) as Hrd.
  destruct (onCanvasClick_draws s cv cur e Ha Hcur Hcv)
    as (s0 & E & Hc0 & _ & Han0 & _).
  repeat split.
  - unfold onCanvasClick, drawAnnotations. rewrite Ha, Hcv, Hcur. cbn.
    rewrite length_app. cbn. now rewrite Nat.add_1_r.
  - now destruct (onCanvasClick_second s cv cur e Ha Hcur Hcv) as (_ & _ & _ & _ & ->).
  - rewrite E. unfold drawAnnotations. rewrite Hc0. cbn.
    destruct (drawAnnotations_on_exec (annotations s0) (currentAnnotation s0)
                (Canvas.set_cursor "default" cv) Hd) as (_ & _ & _ & _ & _ & ->).
    reflexivity.
  - rewrite Hrd. unfold scene. cbn. now rewrite app_nil_r.
Qed.

End Feedback.

(** ** Saving *)

Lemma findIndex_spec {A : Type} (p : A -> bool) (l : list A) :
  match findIndex p l with
  | None => Forall (fun a => p a = false) l
  | Some i =>
      exists before x after,
        l = before ++ x :: after /\ length before = i /\ p x = true
        /\ Forall (fun a => p a = false) before
  end.
Proof.
  induction l as [|a l IH]; cbn; [constructor|].
  destruct (p a) eqn:Hp.
  - exists [], a, l. repeat split; [assumption|constructor].
  - destruct (findIndex p l) as [i|]; cbn.
    + destruct IH as (before & x & after & -> & Hl & Hx & Hb).
      exists (a :: before), x, after. cbn. repeat split; auto.
    + now constructor.
Qed.

Lemma assign_at_length {A : Type} (before after : list A) (x v : A) :
  assign (length before) v (before ++ x :: after) = before ++ v :: after.
Proof. induction before as [|b before IH]; cbn; [reflexivity|now rewrite IH]. Qed.

(** [saveAndExit] rewrites one entry of the stored array and no other:
    the first one whose id is the id of the screenshot of the overlay.
    That entry becomes the screenshot of the overlay with the working
    list as its annotations; the array keeps its length and its other
    entries, later entries with the same id included.  When no stored
    screenshot has the id -- or the key is missing from the store -- the
    array is written back as it was read, and the working list is stored
    nowhere. *)
Theorem save_replaces_first_match result s shot :
  screenshot s = Some shot ->
  let stored := match result with Some l => l | None => [] end in
  (Forall (fun x => sid x <> sid shot) stored
   /\ screenshotsToStore result s = Some stored)
  \/ (exists before x after,
        stored = before ++ x :: after
        /\ sid x = sid shot
        /\ Forall (fun y => sid y <> sid shot) before
        /\ screenshotsToStore result s
           = Some (before ++ withAnnotations (annotations s) shot :: after)
        /\ sannotations (withAnnotations (annotations s) shot) = Some (annotations s)).
Proof.
  intros Hs stored. unfold screenshotsToStore. rewrite Hs. fold stored. cbn [sid withAnnotations].
  pose proof (findIndex_spec (fun x => String.eqb (sid x) (sid shot)) stored) as H.
  destruct (findIndex _ stored) as [i|].
  - right. destruct H as (before & x & after & E & Hl & Hx & Hb).
    exists before, x, after. rewrite E, <- Hl, assign_at_length.
    repeat split; [now apply String.eqb_eq|].
    eapply Forall_impl; [|exact Hb]. cbn. intros y Hy. now apply String.eqb_neq.
  - left. split; [|reflexivity].
    eapply Forall_impl; [|exact H]. cbn. intros y Hy. now apply String.eqb_neq.
Qed.

(** ** Invariants of a session *)

Lemma trimStart_idempotent (s : string) :
  JS.trimStart (JS.trimStart s) = JS.trimStart s.
Proof.
  induction s as [|c r IH]; [reflexivity|]. cbn.
  destruct (JS.isWhiteSpace c) eqn:E; [exact IH|]. cbn. now rewrite E.
Qed.

Lemma string_of_list_ascii_app (l m : list ascii) :
  string_of_list_ascii (l ++ m)
  = (string_of_list_ascii l ++ string_of_list_ascii m)%string.
Proof. induction l as [|c l IH]; cbn; [reflexivity|now rewrite IH]. Qed.

Lemma list_ascii_of_string_app (s t : string) :
  list_ascii_of_string (s ++ t)%string = list_ascii_of_string s ++ list_ascii_of_string t.
Proof. induction s as [|c s IH]; cbn; [reflexivity|now rewrite IH]. Qed.

Lemma reverse_involutive (s : string) : JS.reverse (JS.reverse s) = s.
Proof.
  unfold JS.reverse.
  now rewrite list_ascii_of_string_of_list_ascii, rev_involutive,
    string_of_list_ascii_of_string.
Qed.

Lemma reverse_cons (c : ascii) (r : string) :
  JS.reverse (String c r) = (JS.reverse r ++ String c "")%string.
Proof. unfold JS.reverse. cbn. now rewrite string_of_list_ascii_app. Qed.

Lemma reverse_snoc (s : string) (c : ascii) :
  JS.reverse (s ++ String c "")%string = String c (JS.reverse s).
Proof.
  unfold JS.reverse. now rewrite list_ascii_of_string_app, rev_app_distr.
Qed.

Lemma trimStart_snoc (s : string) (c : ascii) :
  JS.isWhiteSpace c = false ->
  JS.trimStart (s ++ String c "")%string = (JS.trimStart s ++ String c "")%string.
Proof.
  intro Hc. induction s as [|d s IH]; cbn; [now rewrite Hc|].
  now destruct (JS.isWhiteSpace d).
Qed.

Lemma trimEnd_idempotent (s : string) : JS.trimEnd (JS.trimEnd s) = JS.trimEnd s.
Proof.
  unfold JS.trimEnd. now rewrite reverse_involutive, trimStart_idempotent.
Qed.

(** Trimming the end leaves a string trimmed at its start trimmed there. *)
Lemma trimStart_trimEnd (s : string) :
  JS.trimStart s = s -> JS.trimStart (JS.trimEnd s) = JS.trimEnd s.
Proof.
  destruct s as [|c r]; [reflexivity|]. intro H.
  assert (Hc : JS.isWhiteSpace c = false).
  { destruct (JS.isWhiteSpace c) eqn:Hc; [exfalso|reflexivity].
    cbn [JS.trimStart] in H. rewrite Hc in H.
    apply (f_equal String.length) in H. cbn [String.length] in H.
    assert (L : forall t, String.length (JS.trimStart t) <= String.length t).
    { induction t as [|d t IH]; cbn; [lia|]. destruct (JS.isWhiteSpace d); cbn; lia. }
    specialize (L r). lia. }
  unfold JS.trimEnd.
  rewrite reverse_cons, trimStart_snoc, reverse_snoc by assumption.
  cbn [JS.trimStart]. now rewrite Hc.
Qed.

(** [trim] is idempotent. *)
Lemma trim_idempotent (s : string) : JS.trim (JS.trim s) = JS.trim s.
Proof.
  unfold JS.trim.
  rewrite (trimStart_trimEnd (JS.trimStart s)) by apply trimStart_idempotent.
  apply trimEnd_idempotent.
Qed.

Section Session.

Context {host : Host}.

Lemma step_trimmed s ev :
  (isTrimmed (pendingText s)
   /\ forall a, currentAnnotation s = Some a -> isTrimmed (text a)) ->
  isTrimmed (pendingText (step s ev))
  /\ forall a, currentAnnotation (step s ev) = Some a -> isTrimmed (text a).
Proof.
  intros (Hp & Hc). unfold step.
  destruct (needsOverlay ev && negb (overlayShown s)); [now split|].
  destruct ev as [shot|v| |stored| |e|e|]; cbn [dispatch fst].
  - destruct (startAnnotationMode_placement shot s) as (_ & Hcur & Hpt).
    rewrite Hcur, Hpt. now split.
  - now split.
  - destruct (JS.isBlank (textInput s)) eqn:Hb;
      [rewrite (startAddingAnnotation_blank s Hb); now split|].
    destruct (startAddingAnnotation_text s Hb) as (Hpt & _ & Hcur & _).
    rewrite Hpt, Hcur. split; [apply trim_idempotent|assumption].
  - destruct (saveAndExit_placement stored s) as (_ & Hcur & Hpt & _).
    rewrite Hcur, Hpt. now split.
  - split; [reflexivity|intro a; discriminate].
  - destruct (isAddingAnnotation s) eqn:Ha;
      [|rewrite onCanvasClick_not_adding by assumption; now split].
    destruct (canvas s) as [cv|] eqn:Hcv;
      [|unfold onCanvasClick; rewrite Ha, Hcv; now split].
    destruct (currentAnnotation s) as [cur|] eqn:Hcur.
    + destruct (onCanvasClick_second s cv cur e Ha Hcur Hcv) as (_ & Hc' & _ & Hpt & _).
      rewrite Hc', Hpt. split; [assumption|intro a; discriminate].
    + destruct (onCanvasClick_first s cv e Ha Hcur Hcv) as (Hc' & _ & _ & Hpt & _).
      rewrite Hc', Hpt. split; [assumption|].
      intros a E. injection E as <-. exact Hp.
  - destruct (onCanvasMouseMove_placement e s) as (_ & Hcur & Hpt & _).
    rewrite Hcur, Hpt. now split.
  - split; [reflexivity|intro a; discriminate].
Qed.

(** Whatever the user types, the text of a record made by placement has
    no white space at its ends and is not empty: in every state the
    overlay reaches the pending text is trimmed, and so is the text of
    the annotation in progress, which is what the second click appends. *)
Theorem placed_text_is_trimmed s :
  reachable s ->
  isTrimmed (pendingText s)
  /\ forall cur,
       currentAnnotation s = Some cur ->
       isTrimmed (text cur) /\ text cur <> ""%string
       /\ forall cv e,
            canvas s = Some cv -> isAddingAnnotation s = true ->
            exists r, annotations (onCanvasClick e s) = annotations s ++ [r]
                      /\ text r = text cur.
Proof.
  intro Hr.
  assert (T : isTrimmed (pendingText s)
              /\ forall a, currentAnnotation s = Some a -> isTrimmed (text a)).
  { induction Hr as [|s ev _ IH]; [split; [reflexivity|intro a; discriminate]|].
    now apply step_trimmed. }
  destruct T as (Tp & Tc). split; [assumption|].
  intros cur Hcur. split; [now apply Tc|].
  destruct (reachable_placedTextNonEmpty s Hr) as (_ & Hn).
  split; [now apply Hn|].
  intros cv e Hcv Ha.
  destruct (onCanvasClick_second s cv cur e Ha Hcur Hcv) as (Han & _).
  eexists. split; [exact Han|reflexivity].
Qed.

(** What one event of a session does to the annotations and to the
    annotation in progress. *)
Lemma step_of_session s ev :
  keepsSession ev = true ->
  (annotations (step s ev) = annotations s
   /\ currentAnnotation (step s ev) = currentAnnotation s)
  \/ (clicks [ev] = 1%nat
      /\ annotations (step s ev) = annotations s
      /\ currentAnnotation s = None
      /\ currentAnnotation (step s ev) <> None)
  \/ (clicks [ev] = 1%nat
      /\ exists r, annotations (step s ev) = annotations s ++ [r]
                   /\ currentAnnotation s <> None
                   /\ currentAnnotation (step s ev) = None).
Proof.
  intro Hk. unfold step.
  destruct (needsOverlay ev && negb (overlayShown s)); [now left|].
  destruct ev as [shot|v| |stored| |e|e|]; try discriminate; cbn [dispatch fst].
  - now left.
  - left. destruct (JS.isBlank (textInput s)) eqn:Hb;
      [now rewrite (startAddingAnnotation_blank s Hb)|].
    now destruct (startAddingAnnotation_text s Hb) as (_ & _ & Hc & Han & _).
  - left. now destruct (saveAndExit_placement stored s) as (_ & Hc & _ & Han).
  - destruct (isAddingAnnotation s) eqn:Ha;
      [|left; now rewrite onCanvasClick_not_adding].
    destruct (canvas s) as [cv|] eqn:Hcv;
      [|left; unfold onCanvasClick; now rewrite Ha, Hcv].
    destruct (currentAnnotation s) as [cur|] eqn:Hcur.
    + right. right. split; [reflexivity|].
      destruct (onCanvasClick_second s cv cur e Ha Hcur Hcv) as (Han & Hc & _).
      eexists. split; [exact Han|]. split; [discriminate|assumption].
    + right. left. split; [reflexivity|].
      destruct (onCanvasClick_first s cv e Ha Hcur Hcv) as (Hc & Han & _).
      repeat split; [assumption|]. rewrite Hc. discriminate.
  - left. now destruct (onCanvasMouseMove_placement e s) as (_ & Hc & _ & Han).
Qed.

(** Within a session -- no new screenshot, no "Cancel", no cleanup --
    the annotations only grow at their end: no record is changed, moved
    or removed, whatever the events are.  And a record costs two clicks:
    twice the number of records added, plus one if an annotation is left
    in progress, is at most the number of clicks, plus one if an
    annotation was in progress at the start. *)
Theorem annotations_only_grow evs :
  forall s,
    forallb keepsSession evs = true ->
    exists added,
      annotations (run s evs) = annotations s ++ added
      /\ (2 * length added + length (inProgress (run s evs))
          <= clicks evs + length (inProgress s))%nat.
Proof.
  induction evs as [|ev evs IH]; intros s Hk.
  - exists []. cbn. rewrite app_nil_r. split; [reflexivity|lia].
  - cbn in Hk. apply andb_prop in Hk as (Hev & Hk).
    cbn [run fold_left].
    change (fold_left step evs (step s ev)) with (run (step s ev) evs).
    destruct (IH (step s ev) Hk) as (added & Han & Hn).
    assert (Hcl : clicks (ev :: evs) = (clicks [ev] + clicks evs)%nat).
    { unfold clicks. cbn. now destruct ev. }
    rewrite Hcl.
    destruct (step_of_session s ev Hev)
      as [(Ha & Hc)|[(Hcl1 & Ha & Hc & Hc')|(Hcl1 & r & Ha & Hc & Hc')]].
    + exists added. rewrite Han, Ha. split; [reflexivity|].
      unfold inProgress in *. rewrite Hc in Hn. lia.
    + exists added. rewrite Han, Ha. split; [reflexivity|].
      unfold inProgress in *. rewrite Hc.
      destruct (currentAnnotation (step s ev)); [|contradiction]. cbn in *. lia.
    + exists (r :: added). rewrite Han, Ha, <- app_assoc. split; [reflexivity|].
      unfold inProgress in *. rewrite Hc' in Hn.
      destruct (currentAnnotation s); [|contradiction]. cbn in *. lia.
Qed.

End Session.

(** ** Saving during a placement *)

Section SaveWindow.

Context {host : Host}.

(** "Save & Exit" while a target click is awaited writes the committed
    annotations only, and does not end the placement: the overlay stays
    until the timer fires, a click after the write and before the timer
    still appends the annotation in progress to the working list, and
    [cleanup] then empties the list -- that record was written to no
    store. *)
Theorem save_does_not_wait_for_placement s shot cv cur e :
  screenshot s = Some shot ->
  canvas s = Some cv ->
  isAddingAnnotation s = true ->
  currentAnnotation s = Some cur ->
  let s1 := fst (saveAndExit true s) in
  snd (saveAndExit true s)
  = [StorageSet (withAnnotations (annotations s) shot);
     Notification "Annotations saved successfully!" "success";
     SetTimeoutCleanup 1500]
  /\ overlayShown s1 = overlayShown s
  /\ placementState s1 = placementState s
  /\ annotations (onCanvasClick e s1)
     = annotations s ++ [set_pointer (canvasX e cv) (canvasY e cv) cur]
  /\ annotations (cleanup (onCanvasClick e s1)) = []
  /\ screenshot (cleanup (onCanvasClick e s1)) = None.
Proof.
  intros Hs Hcv Ha Hcur. cbv zeta.
  destruct (saveAndExit_placement true s) as (Ha1 & Hc1 & Hp1 & Han1).
  assert (Hcv1 : canvas (fst (saveAndExit true s)) = Some cv)
    by (unfold saveAndExit; now rewrite Hs).
  rewrite Ha in Ha1. rewrite Hcur in Hc1.
  destruct (onCanvasClick_second _ cv cur e Ha1 Hc1 Hcv1) as (Han2 & _).
  repeat split.
  - unfold saveAndExit. now rewrite Hs.
  - unfold saveAndExit. now rewrite Hs.
  - unfold placementState. now rewrite Ha1, Hc1, Ha, Hcur.
  - now rewrite Han2, Han1.
Qed.

End SaveWindow.

Lemma save_does_not_wait_for_placement_demo :
  let e := Demo.pointerAt 300 200 1700000002500 in
  let s1 := fst (saveAndExit true Demo.labelled) in
  snd (saveAndExit true Demo.labelled)
  = [StorageSet (withAnnotations (annotations Demo.labelled) Demo.shot);
     Notification "Annotations saved successfully!" "success";
     SetTimeoutCleanup 1500]
  /\ overlayShown s1 = overlayShown Demo.labelled
  /\ placementState s1 = placementState Demo.labelled
  /\ annotations (@onCanvasClick Demo.host e s1)
     = annotations Demo.labelled
       ++ [set_pointer (canvasX e Demo.surface) (canvasY e Demo.surface) Demo.draft]
  /\ annotations (cleanup (@onCanvasClick Demo.host e s1)) = []
  /\ screenshot (cleanup (@onCanvasClick Demo.host e s1)) = None.
Proof.
  apply (@save_does_not_wait_for_placement Demo.host Demo.labelled Demo.shot
           Demo.surface Demo.draft (Demo.pointerAt 300 200 1700000002500)).
  - reflexivity.
  - reflexivity.
  - reflexivity.
  - reflexivity.
Defined.

(** ** The properties on the example session *)

Lemma hover_draws_preview_demo :
  exists cv,
    canvas Demo.labelled = Some cv
    /\ rendered (@onCanvasMouseMove Demo.host (Demo.pointerAt 200 150 1700000001000)
                                   Demo.labelled)
       = Some (flat_map (@annotationMarks Demo.host) (annotations Demo.labelled)
               ++ (let font := match annotations Demo.labelled with
                               | [] => "10px sans-serif"
                               | _ :: _ => "14px Arial"
                               end in
                   [ Canvas.FilledRect (x Demo.draft - 4) (y Demo.draft - 20)
                       (@measureTextWidth Demo.host font (text Demo.draft) + 8) 20
                       "rgba(255, 255, 0, 0.8)";
                     Canvas.FilledText (text Demo.draft) (x Demo.draft) (y Demo.draft - 4)
                                       font "#000000";
                     Canvas.Stroked
                       [Canvas.MoveTo (x Demo.draft) (y Demo.draft);
                        Canvas.LineTo
                          (canvasX (Demo.pointerAt 200 150 1700000001000) cv)
                          (canvasY (Demo.pointerAt 200 150 1700000001000) cv)]
                       "rgba(255, 0, 0, 0.7)" 2 [5; 5] ]))
    /\ option_map Canvas.lineDash
         (canvas (@onCanvasMouseMove Demo.host (Demo.pointerAt 200 150 1700000001000)
                                     Demo.labelled)) = Some []
    /\ annotations (@onCanvasMouseMove Demo.host (Demo.pointerAt 200 150 1700000001000)
                                       Demo.labelled)
       = annotations Demo.labelled
    /\ currentAnnotation (@onCanvasMouseMove Demo.host
                            (Demo.pointerAt 200 150 1700000001000) Demo.labelled)
       = Some Demo.draft
    /\ isAddingAnnotation (@onCanvasMouseMove Demo.host
                             (Demo.pointerAt 200 150 1700000001000) Demo.labelled)
       = true.
Proof.
  apply (@hover_draws_preview Demo.host Demo.labelled Demo.draft
           (Demo.pointerAt 200 150 1700000001000)).
  - repeat (apply (@reachable_run Demo.host)). constructor.
  - reflexivity.
  - reflexivity.
Defined.

Lemma reopening_keeps_placement_demo :
  placementState (@startAnnotationMode Demo.host Demo.stored Demo.labelled)
  = Some (AwaitingTargetClick "Bug here" (120, 80))
  /\ exists r,
       annotations (@onCanvasClick Demo.host (Demo.pointerAt 300 200 1700000002500)
                      (@startAnnotationMode Demo.host Demo.stored Demo.labelled))
       = match sannotations Demo.stored with Some l => l | None => [] end ++ [r]
       /\ text r = "Bug here"%string
       /\ labelPosition r = (120, 80)
       /\ targetPosition r
          = (canvasX (Demo.pointerAt 300 200 1700000002500)
               (Canvas.create (Canvas.sizeAttribute 300 (displayWidth Demo.stored))
                              (Canvas.sizeAttribute 150 (displayHeight Demo.stored))),
             canvasY (Demo.pointerAt 300 200 1700000002500)
               (Canvas.create (Canvas.sizeAttribute 300 (displayWidth Demo.stored))
                              (Canvas.sizeAttribute 150 (displayHeight Demo.stored)))).
Proof.
  apply (@reopening_keeps_placement Demo.host Demo.stored Demo.labelled
           "Bug here"%string (120, 80) (Demo.pointerAt 300 200 1700000002500)).
  reflexivity.
Defined.

Lemma label_click_feedback_demo :
  currentAnnotation (@onCanvasClick Demo.host (Demo.pointerAt 120 80 1700000000123)
                                    Demo.started)
  = Some (mkAnnotation (JS.toString (dateNow (Demo.pointerAt 120 80 1700000000123)))
            "Bug here"
            (canvasX (Demo.pointerAt 120 80 1700000000123) Demo.surface)
            (canvasY (Demo.pointerAt 120 80 1700000000123) Demo.surface)
            (canvasX (Demo.pointerAt 120 80 1700000000123) Demo.surface)
            (canvasY (Demo.pointerAt 120 80 1700000000123) Demo.surface)
            (isoNow (Demo.pointerAt 120 80 1700000000123)))
  /\ canvas (@onCanvasClick Demo.host (Demo.pointerAt 120 80 1700000000123) Demo.started)
     = Some Demo.surface
  /\ statusText (@onCanvasClick Demo.host (Demo.pointerAt 120 80 1700000000123)
                                Demo.started)
     = "Click where to point the arrow"%string
  /\ textInput (@onCanvasClick Demo.host (Demo.pointerAt 120 80 1700000000123)
                               Demo.started)
     = textInput Demo.started
  /\ pendingText (@onCanvasClick Demo.host (Demo.pointerAt 120 80 1700000000123)
                                 Demo.started)
     = "Bug here"%string.
Proof.
  apply (@label_click_feedback Demo.host Demo.started Demo.surface "Bug here"%string
           (Demo.pointerAt 120 80 1700000000123)).
  - reflexivity.
  - reflexivity.
Defined.

Lemma commit_feedback_demo :
  statusText (@onCanvasClick Demo.host (Demo.pointerAt 300 200 1700000002500)
                             Demo.labelled)
  = (JS.lengthToString (S (length (annotations Demo.labelled))) ++ " annotations")%string
  /\ textInput (@onCanvasClick Demo.host (Demo.pointerAt 300 200 1700000002500)
                               Demo.labelled) = ""%string
  /\ option_map Canvas.cursor
       (canvas (@onCanvasClick Demo.host (Demo.pointerAt 300 200 1700000002500)
                               Demo.labelled)) = Some "default"%string
  /\ rendered (@onCanvasClick Demo.host (Demo.pointerAt 300 200 1700000002500)
                              Demo.labelled)
     = Some (flat_map (@annotationMarks Demo.host)
               (annotations (@onCanvasClick Demo.host
                               (Demo.pointerAt 300 200 1700000002500) Demo.labelled))).
Proof.
  apply (@commit_feedback Demo.host Demo.labelled Demo.draft
           (Demo.pointerAt 300 200 1700000002500)).
  - repeat (apply (@reachable_run Demo.host)). constructor.
  - reflexivity.
  - reflexivity.
Defined.

Lemma save_replaces_first_match_demo :
  let stored := [ mkScreenshot "1699999999000" "data:image/png;base64," 1728 972 (Some []);
                  Demo.stored; Demo.stored ] in
  (Forall (fun x => sid x <> sid Demo.shot) stored
   /\ screenshotsToStore (Some stored) Demo.committed = Some stored)
  \/ (exists before x after,
        stored = before ++ x :: after
        /\ sid x = sid Demo.shot
        /\ Forall (fun y => sid y <> sid Demo.shot) before
        /\ screenshotsToStore (Some stored) Demo.committed
           = Some (before ++ withAnnotations (annotations Demo.committed) Demo.shot :: after)
        /\ sannotations (withAnnotations (annotations Demo.committed) Demo.shot)
           = Some (annotations Demo.committed)).
Proof.
  apply (save_replaces_first_match
           (Some [ mkScreenshot "1699999999000" "data:image/png;base64," 1728 972 (Some []);
                   Demo.stored; Demo.stored ])
           Demo.committed Demo.shot).
  reflexivity.
Defined.

Lemma placed_text_is_trimmed_demo :
  isTrimmed (pendingText Demo.labelled)
  /\ forall cur,
       currentAnnotation Demo.labelled = Some cur ->
       isTrimmed (text cur) /\ text cur <> ""%string
       /\ forall cv e,
            canvas Demo.labelled = Some cv -> isAddingAnnotation Demo.labelled = true ->
            exists r, annotations (@onCanvasClick Demo.host e Demo.labelled)
                      = annotations Demo.labelled ++ [r]
                      /\ text r = text cur.
Proof.
  apply (@placed_text_is_trimmed Demo.host Demo.labelled).
  repeat (apply (@reachable_run Demo.host)). constructor.
Defined.

Lemma annotations_only_grow_demo :
  exists added,
    annotations (@run Demo.host Demo.opened Demo.twoPlacements)
    = annotations Demo.opened ++ added
    /\ (2 * length added
        + length (inProgress (@run Demo.host Demo.opened Demo.twoPlacements))
        <= clicks Demo.twoPlacements + length (inProgress Demo.opened))%nat.
Proof.
  apply (@annotations_only_grow Demo.host Demo.twoPlacements Demo.opened).
  reflexivity.
Defined.

Lemma placement_session_demo :
  let s := @run Demo.host Demo.opened [TypeText "  Bug here "] in
  let e1 := Demo.pointerAt 120 80 1700000000123 in
  let e2 := Demo.pointerAt 300 200 1700000002500 in
  let s' := @onCanvasClick Demo.host e2
              (@onCanvasClick Demo.host e1 (fst (startAddingAnnotation s))) in
  annotations s'
  = annotations s
    ++ [mkAnnotation (JS.toString (dateNow e1)) (JS.trim (textInput s))
          (canvasX e1 Demo.surface) (canvasY e1 Demo.surface)
          (canvasX e2 Demo.surface) (canvasY e2 Demo.surface) (isoNow e1)]
  /\ placementState s' = Some Idle.
Proof.
  apply (@placement_session Demo.host
           (@run Demo.host Demo.opened [TypeText "  Bug here "]) Demo.surface
           (Demo.pointerAt 120 80 1700000000123)
           (Demo.pointerAt 300 200 1700000002500)).
  - reflexivity.
  - reflexivity.
  - reflexivity.
Defined.

Lemma reachable_has_placementState_demo : placementState Demo.labelled <> None.
Proof.
  apply (@reachable_has_placementState Demo.host Demo.labelled).
  repeat (apply (@reachable_run Demo.host)). constructor.
Defined.

(** * The web application *)

(** ** Placement *)

(** A whole placement in the web application.  "Add Annotation" checks
    the text of that moment; the text of the annotation is read from the
    input at the first click, untrimmed, and what is typed afterwards is
    lost.  The two clicks send one POST, to the current screenshot, with
    the offsets of the clicks from the corner of the image as positions;
    the second click empties the input and ends the mode, and the list
    of annotations is not touched. *)
Theorem web_placement_posts_once s shotId typed retyped e1 e2 :
  WebApp.currentScreenshot s = Some shotId ->
  JS.falsy (JS.trim (WebApp.annotationText s)) = false ->
  let '(s1, fx1) := WebApp.startAnnotation s in
  let '(s2, fx2) := WebApp.handleImageClick e1 (WebApp.setAnnotationText typed s1) in
  let '(s3, fx3) := WebApp.handleImageClick e2 (WebApp.setAnnotationText retyped s2) in
  fx1 ++ fx2 ++ fx3
  = [WebApp.PostAnnotation shotId
       (WebApp.mkAnnotation None typed
          (clientX e1 - left (rect e1)) (clientY e1 - top (rect e1))
          (clientX e2 - left (rect e2)) (clientY e2 - top (rect e2)))]
  /\ s3 = WebApp.mkState (Some shotId) false "" (WebApp.annotations s) None.
Proof.
  intros Hs Ht. unfold WebApp.startAnnotation. rewrite Ht.
  unfold WebApp.handleImageClick, WebApp.setAnnotationText. cbn. rewrite Hs. cbn.
  split; reflexivity.
Qed.

Lemma web_placement_posts_once_demo :
  let s := WebApp.mkState (Some "shot-1") false "Bug here" [] None in
  let e1 := mkPointer 130 95 (mkRect 10 15 800 600) 0 "" in
  let e2 := mkPointer 310 215 (mkRect 10 15 800 600) 0 "" in
  let '(s1, fx1) := WebApp.startAnnotation s in
  let '(s2, fx2) := WebApp.handleImageClick e1 (WebApp.setAnnotationText "   " s1) in
  let '(s3, fx3) := WebApp.handleImageClick e2 (WebApp.setAnnotationText "late" s2) in
  fx1 ++ fx2 ++ fx3
  = [WebApp.PostAnnotation "shot-1"
       (WebApp.mkAnnotation None "   " (130 - 10) (95 - 15) (310 - 10) (215 - 15))]
  /\ s3 = WebApp.mkState (Some "shot-1") false "" [] None.
Proof.
  exact (web_placement_posts_once
           (WebApp.mkState (Some "shot-1") false "Bug here" [] None) "shot-1"
           "   " "late"
           (mkPointer 130 95 (mkRect 10 15 800 600) 0 "")
           (mkPointer 310 215 (mkRect 10 15 800 600) 0 "")
           eq_refl eq_refl).
Defined.

(** ** Runs *)

Lemma web_step_idle ev s :
  WebApp.isAnnotating s = false ->
  WebApp.isAddAnnotationButton ev = false ->
  snd (WebApp.step ev s) = []
  /\ WebApp.isAnnotating (fst (WebApp.step ev s)) = false
  /\ WebApp.pendingAnnotation (fst (WebApp.step ev s)) = WebApp.pendingAnnotation s.
Proof.
  intros Ha Hev. unfold WebApp.step, WebApp.handleImageClick.
  destruct ev, (WebApp.currentScreenshot s); try discriminate; rewrite ?Ha; cbn;
    repeat split; try assumption; reflexivity.
Qed.

(** "Cancel" is final until "Add Annotation" is pressed again: whatever
    else happens -- clicks on the image, typing, another screenshot,
    annotations arriving -- no annotation is POSTed and the dialog of
    [startAnnotation] is not opened, the mode stays off and no annotation
    is pending. *)
Theorem web_cancel_is_final s evs :
  forallb (fun ev => negb (WebApp.isAddAnnotationButton ev)) evs = true ->
  snd (WebApp.run (WebApp.cancelAnnotation s) evs) = []
  /\ WebApp.isAnnotating (fst (WebApp.run (WebApp.cancelAnnotation s) evs)) = false
  /\ WebApp.pendingAnnotation (fst (WebApp.run (WebApp.cancelAnnotation s) evs)) = None.
Proof.
  assert (G : forall evs s0,
             forallb (fun ev => negb (WebApp.isAddAnnotationButton ev)) evs = true ->
             WebApp.isAnnotating s0 = false ->
             snd (WebApp.run s0 evs) = []
             /\ WebApp.isAnnotating (fst (WebApp.run s0 evs)) = false
             /\ WebApp.pendingAnnotation (fst (WebApp.run s0 evs))
                = WebApp.pendingAnnotation s0).
  { clear. induction evs as [|ev evs IH]; intros s0 Hk Ha; [now repeat split|].
    cbn in Hk. apply andb_prop in Hk as (Hev & Hk). apply negb_true_iff in Hev.
    destruct (web_step_idle ev s0 Ha Hev) as (Hfx & Ha1 & Hp1).
    cbn [WebApp.run]. destruct (WebApp.step ev s0) as [s1 fx1]. cbn in *.
    destruct (IH s1 Hk Ha1) as (Hfx2 & Ha2 & Hp2).
    destruct (WebApp.run s1 evs) as [s2 fx2]. cbn in *.
    subst. repeat split; congruence. }
  intro Hk. exact (G evs (WebApp.cancelAnnotation s) Hk eq_refl).
Qed.

Lemma web_cancel_is_final_demo :
  let s := WebApp.mkState (Some "shot-1") true "Bug here" []
             (Some (WebApp.mkAnnotation None "Bug here" 120 80 120 80)) in
  let evs := [WebApp.ImageClick (mkPointer 310 215 (mkRect 10 15 800 600) 0 "");
              WebApp.TypeText "other"; WebApp.SelectScreenshot "shot-2";
              WebApp.ImageClick (mkPointer 50 60 (mkRect 10 15 800 600) 0 "")] in
  snd (WebApp.run (WebApp.cancelAnnotation s) evs) = []
  /\ WebApp.isAnnotating (fst (WebApp.run (WebApp.cancelAnnotation s) evs)) = false
  /\ WebApp.pendingAnnotation (fst (WebApp.run (WebApp.cancelAnnotation s) evs)) = None.
Proof.
  exact (web_cancel_is_final
           (WebApp.mkState (Some "shot-1") true "Bug here" []
              (Some (WebApp.mkAnnotation None "Bug here" 120 80 120 80)))
           [WebApp.ImageClick (mkPointer 310 215 (mkRect 10 15 800 600) 0 "");
            WebApp.TypeText "other"; WebApp.SelectScreenshot "shot-2";
            WebApp.ImageClick (mkPointer 50 60 (mkRect 10 15 800 600) 0 "")]
           eq_refl).
Defined.

Lemma web_step_counts ev s :
  (2 * length (WebApp.posts (snd (WebApp.step ev s)))
   + length (WebApp.pending (fst (WebApp.step ev s)))
   <= WebApp.imageClicks [ev] + length (WebApp.pending s))%nat
  /\ ((WebApp.isAnnotating s = false -> WebApp.pendingAnnotation s = None) ->
      WebApp.isAnnotating (fst (WebApp.step ev s)) = false ->
      WebApp.pendingAnnotation (fst (WebApp.step ev s)) = None).
Proof.
  unfold WebApp.step, WebApp.handleImageClick, WebApp.startAnnotation,
    WebApp.pending, WebApp.imageClicks.
  destruct ev, (WebApp.currentScreenshot s), (WebApp.isAnnotating s) eqn:Ha,
    (WebApp.pendingAnnotation s) eqn:Hp;
    try destruct (JS.falsy _); cbn; rewrite ?Ha, ?Hp; cbn;
    split; try lia; try (intros H1 H2; auto; discriminate).
Qed.

Lemma web_posts_app fx1 fx2 :
  WebApp.posts (fx1 ++ fx2) = WebApp.posts fx1 ++ WebApp.posts fx2.
Proof. unfold WebApp.posts. apply flat_map_app. Qed.

(** In every run of the web application from its first render, a POST
    costs two clicks on the image -- twice the number of POSTs, plus one
    for a pending annotation, is at most the number of clicks -- and an
    annotation is pending only while the annotation mode is on. *)
Theorem web_posts_need_two_clicks evs :
  let s := fst (WebApp.run WebApp.initial evs) in
  let fx := snd (WebApp.run WebApp.initial evs) in
  (2 * length (WebApp.posts fx) + length (WebApp.pending s)
   <= WebApp.imageClicks evs)%nat
  /\ (WebApp.isAnnotating s = false -> WebApp.pendingAnnotation s = None).
Proof.
  assert (G : forall evs s0,
             (WebApp.isAnnotating s0 = false -> WebApp.pendingAnnotation s0 = None) ->
             (2 * length (WebApp.posts (snd (WebApp.run s0 evs)))
              + length (WebApp.pending (fst (WebApp.run s0 evs)))
              <= WebApp.imageClicks evs + length (WebApp.pending s0))%nat
             /\ (WebApp.isAnnotating (fst (WebApp.run s0 evs)) = false ->
                 WebApp.pendingAnnotation (fst (WebApp.run s0 evs)) = None)).
  { clear. induction evs as [|ev evs IH]; intros s0 Hi.
    - cbn. split; [lia|assumption].
    - destruct (web_step_counts ev s0) as (Hn & Hi1).
      cbn [WebApp.run]. destruct (WebApp.step ev s0) as [s1 fx1]. cbn [fst snd] in *.
      destruct (IH s1 (Hi1 Hi)) as (Hn2 & Hi2).
      destruct (WebApp.run s1 evs) as [s2 fx2]. cbn [fst snd] in *.
      split; [|assumption].
      rewrite web_posts_app, length_app.
      assert (Hc : WebApp.imageClicks (ev :: evs)
                   = (WebApp.imageClicks [ev] + WebApp.imageClicks evs)%nat).
      { unfold WebApp.imageClicks. cbn. now destruct ev. }
      lia. }
  cbv zeta. destruct (G evs WebApp.initial (fun _ => eq_refl)) as (Hn & Hi).
  cbn in Hn. split; [lia|assumption].
Qed.

(** Choosing another screenshot between the two clicks does not end the
    placement: the second click sends the pending annotation, with the
    text and the label position of the first click, to the screenshot
    that is current now. *)
Theorem web_switch_keeps_pending s shotId other p e :
  WebApp.currentScreenshot s = Some shotId ->
  WebApp.isAnnotating s = true ->
  WebApp.pendingAnnotation s = Some p ->
  snd (WebApp.run s [WebApp.SelectScreenshot other; WebApp.ImageClick e])
  = [WebApp.PostAnnotation other
       (WebApp.mkAnnotation (WebApp.id p) (WebApp.text p) (WebApp.x p) (WebApp.y p)
          (clientX e - left (rect e)) (clientY e - top (rect e)))].
Proof.
  intros Hs Ha Hp. cbn. unfold WebApp.handleImageClick. cbn. now rewrite Ha, Hp.
Qed.

Lemma web_switch_keeps_pending_demo :
  snd (WebApp.run
         (WebApp.mkState (Some "shot-1") true "Bug here" []
            (Some (WebApp.mkAnnotation None "Bug here" 120 80 120 80)))
         [WebApp.SelectScreenshot "shot-2";
          WebApp.ImageClick (mkPointer 310 215 (mkRect 10 15 800 600) 0 "")])
  = [WebApp.PostAnnotation "shot-2"
       (WebApp.mkAnnotation None "Bug here" 120 80 (310 - 10) (215 - 15))].
Proof.
  exact (web_switch_keeps_pending
           (WebApp.mkState (Some "shot-1") true "Bug here" []
              (Some (WebApp.mkAnnotation None "Bug here" 120 80 120 80)))
           "shot-1" "shot-2" (WebApp.mkAnnotation None "Bug here" 120 80 120 80)
           (mkPointer 310 215 (mkRect 10 15 800 600) 0 "")
           eq_refl eq_refl eq_refl).
Defined.

(** ** Rendering *)

Section WebRendering.

Context {host : Host}.

Lemma web_drawAnnotation_exec a cv :
  Canvas.lineDash cv = [] ->
  Canvas.exec (WebApp.drawAnnotation a) cv
  = Canvas.mk (Canvas.width cv) (Canvas.height cv) (Canvas.cursor cv)
              "#ff0000" "#ff0000" "14px Arial" 2 []
              [Canvas.Arc (WebApp.pointer_x a) (WebApp.pointer_y a) 4 0 (2 * JS.PI)]
              (Canvas.layer cv ++ WebApp.annotationMarks a).
Proof.
  destruct cv as [w h cur ss fs fnt lw dash pth lyr]. cbn. intros ->.
  cbv -[app]. rewrite <- !app_assoc. reflexivity.
Qed.

Lemma web_forEach_drawAnnotation anns :
  forall cv,
    Canvas.lineDash cv = [] ->
    let cv' := Canvas.exec (Canvas.forEach WebApp.drawAnnotation anns) cv in
    Canvas.layer cv' = Canvas.layer cv ++ flat_map WebApp.annotationMarks anns
    /\ Canvas.font cv' = match anns with [] => Canvas.font cv | _ => "14px Arial"%string end
    /\ Canvas.width cv' = Canvas.width cv
    /\ Canvas.height cv' = Canvas.height cv.
Proof.
  induction anns as [|a anns IH]; intros cv Hd.
  - cbn. rewrite app_nil_r. repeat split; auto.
  - cbn [Canvas.forEach]. rewrite exec_seq, (web_drawAnnotation_exec a cv Hd).
    match goal with
    | |- context [Canvas.exec _ ?c] =>
        destruct (IH c eq_refl) as (Hl & Hf & Hw & Hh)
    end.
    cbv zeta. rewrite Hl, Hf, Hw, Hh. cbn.
    rewrite <- app_assoc. repeat split. now destruct anns.
Qed.

(** [drawAnnotations] of the web application starts from nothing: the
    canvas takes the size of the image, and whatever it showed before,
    it shows the annotations in their order -- line, arrowhead, white
    box, text, dot on top -- and then the yellow box and the text of the
    pending annotation, in the font the context is left with (the
    default ["10px sans-serif"] while there are no annotations).  Without
    a current screenshot nothing is drawn and the canvas keeps what it
    showed. *)
Theorem web_canvas_is_redrawn w h cv s :
  match WebApp.currentScreenshot s with
  | None => WebApp.drawAnnotations w h (Some cv) s = Some cv
  | Some _ =>
      exists cv',
        WebApp.drawAnnotations w h (Some cv) s = Some cv'
        /\ Canvas.width cv' = w /\ Canvas.height cv' = h
        /\ Canvas.layer cv'
           = flat_map WebApp.annotationMarks (WebApp.annotations s)
             ++ match WebApp.pendingAnnotation s with
                | None => []
                | Some p =>
                    let font := match WebApp.annotations s with
                                | [] => "10px sans-serif"
                                | _ :: _ => "14px Arial"
                                end%string in
                    [ Canvas.FilledRect (WebApp.x p - 2) (WebApp.y p - 18)
                        (measureTextWidth font (WebApp.text p) + 4) 20
                        "rgba(255, 255, 0, 0.7)";
                      Canvas.FilledText (WebApp.text p) (WebApp.x p) (WebApp.y p - 2)
                        font "#000000" ]
                end
  end.
Proof.
  unfold WebApp.drawAnnotations.
  destruct (WebApp.currentScreenshot s) as [shotId|]; [|reflexivity].
  eexists. split; [reflexivity|].
  unfold Canvas.exec, Canvas.bind, Canvas.read, Canvas.clearRect, Canvas.call. cbn.
  pose proof (sameRect_whole (WebApp.resize w h cv)) as Hsr. cbn in Hsr. rewrite Hsr.
  pose proof (web_forEach_drawAnnotation (WebApp.annotations s)
                (Canvas.set_layer [] (WebApp.resize w h cv)) eq_refl) as H.
  cbv zeta in H. unfold Canvas.exec in H. cbn in H.
  destruct (Canvas.forEach WebApp.drawAnnotation (WebApp.annotations s) _) as [u c1].
  cbn in H. destruct H as (Hl & Hf & Hw & Hh).
  destruct (WebApp.pendingAnnotation s) as [p|]; cbn.
  - rewrite Hl, Hf, Hw, Hh. split; [reflexivity|]. split; [reflexivity|].
    now rewrite <- app_assoc.
  - rewrite Hl, Hw, Hh. now rewrite app_nil_r.
Qed.

End WebRendering.
